(** * JetBrains projects plugin: a shallow embedding of [__init__.py]

    The plugin enumerates a fixed table of JetBrains IDE variants, keeps
    those whose executable is found on the host, reads each variant's
    recent-projects XML file and offers the projects that match a query.

    The operating system, the XML parser and the launcher's matcher are the
    plugin's collaborators: they appear below as the fields of a [Host]
    record, about which nothing is assumed.  Everything the plugin itself
    computes is a Rocq function over that record.  Python exceptions are
    values of [exn], carried by the [result] monad. *)

From Stdlib Require Import ZArith Lia Ascii.
From stdpp Require Import base strings list gmap sorting pretty.

Local Open Scope Z_scope.
Local Open Scope stdpp_scope.

(** ** Exceptions *)

Inductive exn : Type :=
  | ParseError          (* xml.etree.ElementTree.ParseError *)
  | FileNotFoundError
  | PermissionError     (* an OSError other than FileNotFoundError *)
  | IsADirectoryError   (* another one *)
  | KeyError
  | IndexError
  | TypeError
  | ValueError
  | AttributeError.

Global Instance exn_eq_dec : EqDecision exn.
Proof. solve_decision. Defined.

Inductive result (A : Type) : Type :=
  | Ok (a : A)
  | Raise (e : exn).
Arguments Ok {A} a.
Arguments Raise {A} e.

Global Instance result_ret : MRet result := fun A a => Ok a.
Global Instance result_bind : MBind result := fun A B k r =>
  match r with
  | Ok a => k a
  | Raise e => Raise e
  end.

(** [try: r except (e1, e2): return v] *)
Definition try_except {A : Type} (r : result A) (caught : exn -> bool) (v : A)
  : result A :=
  match r with
  | Ok a => Ok a
  | Raise e => if caught e then Ok v else Raise e
  end.

(** The body of a [for] loop run over a list, left to right; the first
    exception ends the loop. *)
Fixpoint for_each {A S : Type} (body : S -> A -> result S) (l : list A) (s : S)
  : result S :=
  match l with
  | [] => Ok s
  | a :: l' => s' ← body s a; for_each body l' s'
  end.

(** ** Strings, as the code uses them *)

Module Str.

(** Truthiness of a [str]: the empty string is false. *)
Definition truthy (s : string) : bool :=
  match s with
  | "" => false
  | _ => true
  end.

(** [s.replace(old, new)] for a non-empty [old]: the occurrences of [old]
    are found left to right and do not overlap.  [skip] counts the
    characters of a match that are still to be dropped. *)
Fixpoint replace_from (old new : string) (skip : nat) (s : string) : string :=
  match s with
  | "" => ""
  | String c s' =>
      match skip with
      | S k => replace_from old new k s'
      | O =>
          if String.prefix old s
          then new +:+ replace_from old new (String.length old - 1) s'
          else String c (replace_from old new 0 s')
      end
  end.

(** With an empty [old] Python puts [new] before every character and at
    the end. *)
Fixpoint intersperse (new s : string) : string :=
  match s with
  | "" => new
  | String c s' => new +:+ String c (intersperse new s')
  end.

Definition replace (old new s : string) : string :=
  match old with
  | "" => intersperse new s
  | _ => replace_from old new 0 s
  end.

(** [sub in s] *)
Fixpoint contains (sub s : string) : bool :=
  String.prefix sub s ||
  match s with
  | "" => false
  | String _ s' => contains sub s'
  end.

(** [s.split(sep)] for a one-character separator: the pieces between the
    separators, empty ones included; never the empty list. *)
Fixpoint split (sep : ascii) (s : string) : list string :=
  match s with
  | "" => [""]
  | String c s' =>
      if Ascii.eqb c sep then "" :: split sep s'
      else match split sep s' with
           | piece :: rest => String c piece :: rest
           | [] => [String c ""]
           end
  end.

End Str.

(** ** Paths

    A [Path] is carried as its string.  [Path(s).name] is the last of the
    parts of [s]; the parts are the pieces between slashes, without the empty
    ones and the single dots. *)

Module Path.

Definition is_part (piece : string) : bool :=
  Str.truthy piece && negb (String.eqb piece ".").

Definition parts (s : string) : list string :=
  filter (fun piece => is_part piece = true) (Str.split "/" s).

Definition name (s : string) : string := List.last (parts s) "".

(** [Path(a) / b] for a relative [b]. *)
Definition join (a b : string) : string := a +:+ "/" +:+ b.

End Path.

(** ** [int(...)] of a string

    An optional sign, then decimal digits, single underscores allowed between
    digits, white space allowed around the whole.  More than 4300 digits are
    refused (the interpreter's default limit).  Only ASCII is modelled: the
    recent-projects files hold ASCII timestamps. *)

Module Int.

Definition is_space (c : ascii) : bool :=
  let n := N_of_ascii c in
  ((9 <=? n) && (n <=? 13) || (n =? 32))%N.

Definition digit (c : ascii) : option Z :=
  let n := N_of_ascii c in
  if ((48 <=? n) && (n <=? 57))%N then Some (Z.of_N n - 48) else None.

Fixpoint lstrip (s : string) : string :=
  match s with
  | String c s' => if is_space c then lstrip s' else s
  | "" => ""
  end.

Fixpoint all_space (s : string) : bool :=
  match s with
  | "" => true
  | String c s' => is_space c && all_space s'
  end.

(** The digits after the first one.  [acc] is the value so far, [n] the
    number of digits so far, [after_digit] whether the previous character
    was a digit (an underscore must sit between two digits). *)
Fixpoint digits (acc : Z) (n : nat) (after_digit : bool) (s : string)
  : option (Z * nat) :=
  match s with
  | "" => if after_digit then Some (acc, n) else None
  | String c s' =>
      match digit c with
      | Some d => digits (10 * acc + d) (S n) true s'
      | None =>
          if Ascii.eqb c "_" then
            if after_digit then digits acc n false s' else None
          else if after_digit && all_space s then Some (acc, n) else None
      end
  end.

Definition max_str_digits : nat := 4300.

Definition unsigned (s : string) : result Z :=
  match s with
  | String c _ =>
      match digit c with
      | Some _ =>
          match digits 0 0 false s with
          | Some (v, n) =>
              if (max_str_digits <? n)%nat then Raise ValueError else Ok v
          | None => Raise ValueError
          end
      | None => Raise ValueError
      end
  | "" => Raise ValueError
  end.

Definition of_string (s : string) : result Z :=
  match lstrip s with
  | String "+" s' => unsigned s'
  | String "-" s' => v ← unsigned s'; Ok (- v)
  | s' => unsigned s'
  end.

(** [int(x)] where [x] is a string or [None]. *)
Definition of_value (x : option string) : result Z :=
  match x with
  | Some s => of_string s
  | None => Raise TypeError
  end.

End Int.

(** ** XML elements

    An [ElementTree.Element]: its tag, its attribute dictionary and its
    children in document order.  Text and tail are never read by the plugin. *)

#[warnings="-register-all"]
Inductive Element : Type :=
  | Elem (tag : string) (attrib : gmap string string) (children : list Element).

Definition tag (e : Element) : string :=
  match e with Elem t _ _ => t end.
Definition attrib (e : Element) : gmap string string :=
  match e with Elem _ a _ => a end.
Definition children (e : Element) : list Element :=
  match e with Elem _ _ cs => cs end.

Module ElementPath.

(** [elem.iter()]: the element, then its descendants, in document order. *)
Fixpoint iter (e : Element) : list Element :=
  match e with
  | Elem _ _ cs => e :: concat (map iter cs)
  end.

(** The step [//tag]: for every element of the current result, in order,
    the elements below it (itself excluded) that carry the tag. *)
Definition descendant (t : string) (result : list Element) : list Element :=
  concat (map (fun elem =>
    filter (fun e => tag e = t) (concat (map iter (children elem)))) result).

(** The predicate [[@key='value']]. *)
Definition attr_is (key value : string) (result : list Element) : list Element :=
  filter (fun e => attrib e !! key = Some value) result.

(** The predicate [[@key]]. *)
Definition attr_set (key : string) (result : list Element) : list Element :=
  filter (fun e => is_Some (attrib e !! key)) result.

(** [root.findall(".//component[@name='<manager>']//entry[@key]")] *)
Definition findall_entries (manager : string) (root : Element) : list Element :=
  attr_set "key"
    (descendant "entry"
      (attr_is "name" manager
        (descendant "component" [root]))).

(** [entry.find(".//option[@name='projectOpenTimestamp']")] *)
Definition find_timestamp (entry : Element) : option Element :=
  head (attr_is "name" "projectOpenTimestamp" (descendant "option" [entry])).

End ElementPath.

(** ** The host

    What the plugin asks of its environment.  Paths go in and out as
    strings. *)

Record Host : Type := {
  platform : string;                       (* sys.platform *)
  home : string;                           (* str(Path.home()) *)
  which : string -> option string;         (* shutil.which(cmd) *)
  glob : string -> string -> list string;  (* Path(dir).glob(pattern) *)
  parse : string -> result Element;        (* ElementTree.parse(f).getroot() *)
  path_exists : string -> bool;            (* Path(p).exists() *)
  matcher_match : bool -> string -> list string -> bool;
    (* bool(Matcher(query, MatchConfig(fuzzy=..)).match( *fields)) *)
  readConfig : string -> option bool;      (* self.readConfig(key, bool) *)
  plugin_dir : string                      (* str(Path(__file__).parent) *)
}.

(** ** IDE variants and projects *)

Inductive IdeClass : Type :=
  | ClsJetBrainsIde
  | ClsRider.

Record JetBrainsIde : Type := {
  ide_class : IdeClass;
  ide_name : string;
  icon : string;
  config_dir_prefixes : list string;
  binary : option string
}.

Record Project : Type := {
  name : string;
  path : string;
  last_opened : Z;
  ide : JetBrainsIde
}.

Global Instance IdeClass_eq_dec : EqDecision IdeClass.
Proof. solve_decision. Defined.
Global Instance JetBrainsIde_eq_dec : EqDecision JetBrainsIde.
Proof. solve_decision. Defined.
Global Instance Project_eq_dec : EqDecision Project.
Proof. solve_decision. Defined.

Section WithHost.

Context (h : Host).

(** Truthiness of what [which] returns. *)
Definition found (cmd : string) : bool :=
  match which h cmd with
  | Some p => Str.truthy p
  | None => false
  end.

Fixpoint _find_binary (binaries : list string) : option string :=
  match binaries with
  | [] => None
  | b :: rest => if found b then Some b else _find_binary rest
  end.

(** [JetBrainsIde.__init__], also run for a [Rider]. *)
Definition new_ide (cls : IdeClass) (nm icn : string)
    (prefixes binaries : list string) : JetBrainsIde :=
  {| ide_class := cls; ide_name := nm; icon := icn;
     config_dir_prefixes := prefixes; binary := _find_binary binaries |}.

Definition _config_dir : string :=
  if String.eqb (platform h) "darwin"
  then Path.join (Path.join (home h) "Library") "Application Support"
  else Path.join (home h) ".config".

(** The two implementations of [_get_recent_projects_entries] differ in
    the file and in the component they read. *)
Definition recent_file (cls : IdeClass) : string :=
  match cls with
  | ClsJetBrainsIde => "recentProjects.xml"
  | ClsRider => "recentSolutions.xml"
  end.

Definition recent_manager (cls : IdeClass) : string :=
  match cls with
  | ClsJetBrainsIde => "RecentProjectsManager"
  | ClsRider => "RiderRecentProjectsManager"
  end.

(** [Path(config_dir) / "options" / "recentProjects.xml"], or the same
    with [recentSolutions.xml]. *)
Definition recent_projects_file (self : JetBrainsIde) (config_dir : string)
    : string :=
  Path.join (Path.join config_dir "options") (recent_file (ide_class self)).

Definition _get_recent_projects_entries (self : JetBrainsIde)
    (config_dir : string) : result (list Element) :=
  root ← parse h (recent_projects_file self config_dir);
  Ok (ElementPath.findall_entries (recent_manager (ide_class self)) root).

(** [d[key]] on a dictionary. *)
Definition getitem (d : gmap string string) (key : string) : result string :=
  match d !! key with
  | Some v => Ok v
  | None => Raise KeyError
  end.

Definition truthy_opt (x : option string) : bool :=
  match x with
  | Some s => Str.truthy s
  | None => false
  end.

(** The timestamp expression of the loop body. *)
Definition entry_last_opened (entry : Element) : option string :=
  match ElementPath.find_timestamp entry with
  | Some tag_opened => attrib tag_opened !! "value"
  | None => None
  end.

(** [Project(name=.., path=.., last_opened=.., ide=self)] *)
Definition new_project (self : JetBrainsIde) (nm pth : string) (ts : Z)
    : Project :=
  {| name := nm; path := pth; last_opened := ts; ide := self |}.

(** [file.name.replace(".iml", "")] *)
Definition module_name (file : string) : string :=
  Str.replace ".iml" "" (Path.name file).

(** The body of the inner loop, over the module files. *)
Definition module_step (self : JetBrainsIde) (project_path project_name : string)
    (opened : option string) (projects : list Project) (file : string)
    : result (list Project) :=
  let nm := module_name file in
  if negb (String.eqb nm project_name) then
    ts ← Int.of_value opened;
    Ok (projects ++ [new_project self nm project_path ts])
  else Ok projects.

(** The body of the outer loop, over the entries. *)
Definition entry_step (self : JetBrainsIde) (projects : list Project)
    (entry : Element) : result (list Project) :=
  key ← getitem (attrib entry) "key";
  let project_path := Str.replace "$USER_HOME$" (home h) key in
  let project_name := Path.name project_path in
  let files := glob h (project_path +:+ "/.idea") "*.iml" in
  let opened := entry_last_opened entry in
  projects ←
    (if Str.truthy project_path && truthy_opt opened then
       ts ← Int.of_value opened;
       Ok (projects ++ [new_project self project_name project_path ts])
     else Ok projects);
  for_each (module_step self project_path project_name opened)
           files projects.

Definition _parse_project_entries (self : JetBrainsIde)
    (project_entries : list Element) : result (list Project) :=
  for_each (entry_step self) project_entries [].

(** [sorted(dirs)]: the order of paths with one parent is the order of
    their strings. *)
Definition sorted (dirs : list string) : list string :=
  merge_sort String.le dirs.

(** [l[-1]] *)
Definition last_item (l : list string) : result string :=
  match last l with
  | Some x => Ok x
  | None => Raise IndexError
  end.

Definition caught (e : exn) : bool :=
  match e with
  | ParseError | FileNotFoundError => true
  | _ => false
  end.

(** The [try] statement of [list_projects], for the directories [dirs]. *)
Definition read_newest (self : JetBrainsIde) (dirs : list string)
    : result (list Project) :=
  try_except
    (newest ← last_item (sorted dirs);
     recent_projects_entries ← _get_recent_projects_entries self newest;
     _parse_project_entries self recent_projects_entries)
    caught [].

(** [list(self._config_dir().glob(f"{config_dir_prefix}*/"))] *)
Definition matching (config_dir_prefix : string) : list string :=
  glob h _config_dir (config_dir_prefix +:+ "*/").

Fixpoint list_projects_in (self : JetBrainsIde) (prefixes : list string)
    : result (list Project) :=
  match prefixes with
  | [] => Ok []
  | config_dir_prefix :: rest =>
      match matching config_dir_prefix with
      | [] => list_projects_in self rest
      | dirs => read_newest self dirs
      end
  end.

Definition list_projects (self : JetBrainsIde) : result (list Project) :=
  list_projects_in self (config_dir_prefixes self).

(** *** The table of [get_editors] *)

Definition editor_table
  : list (IdeClass * string * string * list string * list string) :=
  [ (ClsJetBrainsIde, "Android Studio", "androidstudio.svg",
     ["Google/AndroidStudio"],
     ["studio"; "androidstudio"; "android-studio"; "android-studio-canary";
      "jdk-android-studio"; "android-studio-system-jdk"]);
    (ClsJetBrainsIde, "Aqua", "aqua.svg",
     ["JetBrains/Aqua"], ["aqua"; "aqua-eap"]);
    (ClsJetBrainsIde, "CLion", "clion.svg",
     ["JetBrains/CLion"], ["clion"; "clion-eap"]);
    (ClsJetBrainsIde, "DataGrip", "datagrip.svg",
     ["JetBrains/DataGrip"], ["datagrip"; "datagrip-eap"]);
    (ClsJetBrainsIde, "DataSpell", "dataspell.svg",
     ["JetBrains/DataSpell"], ["dataspell"; "dataspell-eap"]);
    (ClsJetBrainsIde, "GoLand", "goland.svg",
     ["JetBrains/GoLand"], ["goland"; "goland-eap"]);
    (ClsJetBrainsIde, "IntelliJ IDEA", "idea.svg",
     ["JetBrains/IntelliJIdea"; "JetBrains/Idea"],
     ["idea"; "idea.sh"; "idea-ultimate"; "idea-ce-eap"; "idea-ue-eap";
      "intellij-idea-ce"; "intellij-idea-ce-eap";
      "intellij-idea-ue-bundled-jre"; "intellij-idea-ultimate-edition";
      "intellij-idea-community-edition-jre";
      "intellij-idea-community-edition-no-jre"]);
    (ClsJetBrainsIde, "PhpStorm", "phpstorm.svg",
     ["JetBrains/PhpStorm"], ["phpstorm"; "phpstorm-eap"]);
    (ClsJetBrainsIde, "PyCharm", "pycharm.svg",
     ["JetBrains/PyCharm"],
     ["charm"; "pycharm"; "pycharm-eap"; "pycharm-professional"]);
    (ClsRider, "Rider", "rider.svg",
     ["JetBrains/Rider"], ["rider"; "rider-eap"]);
    (ClsJetBrainsIde, "RubyMine", "rubymine.svg",
     ["JetBrains/RubyMine"],
     ["rubymine"; "rubymine-eap"; "jetbrains-rubymine";
      "jetbrains-rubymine-eap"]);
    (ClsJetBrainsIde, "RustRover", "rustrover.svg",
     ["JetBrains/RustRover"], ["rustrover"; "rustrover-eap"]);
    (ClsJetBrainsIde, "WebStorm", "webstorm.svg",
     ["JetBrains/WebStorm"], ["webstorm"; "webstorm-eap"]);
    (ClsJetBrainsIde, "Writerside", "writerside.svg",
     ["JetBrains/Writerside"], ["writerside"; "writerside-eap"]) ].

Definition row_binaries
    (row : IdeClass * string * string * list string * list string)
    : list string := snd row.

(** One constructor call of the list literal. *)
Definition construct (icons_dir : string)
    (row : IdeClass * string * string * list string * list string)
    : JetBrainsIde :=
  match row with
  | (cls, nm, svg, prefixes, binaries) =>
      new_ide cls nm (Path.join icons_dir svg) prefixes binaries
  end.

Definition has_binary (e : JetBrainsIde) : bool :=
  match binary e with
  | Some _ => true
  | None => false
  end.

Definition get_editors (icons_dir : string) : list JetBrainsIde :=
  let editors := map (construct icons_dir) editor_table in
  List.filter has_binary editors.

(** *** The plugin *)

Record Plugin : Type := {
  fuzzy : bool;
  _match_path : bool;
  editors : list JetBrainsIde
}.

(** [Plugin.__init__] *)
Definition new_plugin : Plugin :=
  {| fuzzy := false;
     _match_path := match readConfig h "match_path" with
                    | Some b => b
                    | None => false
                    end;
     editors := get_editors (Path.join (plugin_dir h) "icons") |}.

Definition setFuzzyMatching (self : Plugin) (enabled : bool) : Plugin :=
  {| fuzzy := enabled; _match_path := _match_path self;
     editors := editors self |}.

(** The nested comprehension of [_get_projects], one editor after the
    other. *)
Fixpoint _get_projects_of (eds : list JetBrainsIde) : result (list Project) :=
  match eds with
  | [] => Ok []
  | editor :: rest =>
      projects ← list_projects editor;
      others ← _get_projects_of rest;
      Ok (List.filter (fun project => path_exists h (path project)) projects
          ++ others)
  end.

Definition _get_projects (self : Plugin) : result (list Project) :=
  _get_projects_of (editors self).

(** The fields handed to the matcher. *)
Definition match_fields (self : Plugin) (project : Project) : list string :=
  if _match_path self then [name project; path project] else [name project].

(** The comprehension [matches] of [items]. *)
Definition matches (self : Plugin) (query : string) : result (list Project) :=
  projects ← _get_projects self;
  Ok (List.filter
        (fun project =>
           matcher_match h (fuzzy self) query (match_fields self project))
        projects).

End WithHost.

(** [list.sort(key=lambda p: p.last_opened, reverse=True)]: a stable sort,
    largest key first; elements with equal keys keep their order. *)
Fixpoint insert_recent (p : Project) (l : list Project) : list Project :=
  match l with
  | [] => [p]
  | q :: l' =>
      if last_opened p <? last_opened q then q :: insert_recent p l'
      else p :: l
  end.

Fixpoint sort_recent (l : list Project) : list Project :=
  match l with
  | [] => []
  | p :: l' => insert_recent p (sort_recent l')
  end.

(** ** Items *)

Record Action : Type := {
  action_id : string;
  action_text : string;
  runDetachedProcess : list (option string)   (* what the callable launches *)
}.

Record StandardItem : Type := {
  id : string;
  text : string;
  subtext : string;
  input_action_text : string;
  icon_factory : string;       (* the path the factory hands to Icon.image *)
  actions : list Action
}.

(** The objects that reach [_make_item]. *)
Inductive PyObject : Type :=
  | ObjIde (e : JetBrainsIde)
  | ObjProject (p : Project).

(** [str(x)] of a string or [None]. *)
Definition str_opt (x : option string) : string :=
  match x with
  | Some s => s
  | None => "None"
  end.

(** The body of [_make_item], its two parameters bound. *)
Definition make_item_body (editor project : PyObject) : result StandardItem :=
  match editor, project with
  | ObjIde e, ObjProject p =>
      Ok {| id := str_opt (binary e) +:+ "-" +:+ path p +:+ "-"
                  +:+ pretty (last_opened p);
            text := name p;
            subtext := path p;
            input_action_text := name p;
            icon_factory := icon e;
            actions :=
              [{| action_id := "Open";
                  action_text := "Open in " +:+ ide_name e;
                  runDetachedProcess := [binary e; Some (path p)] |}] |}
  | _, _ => Raise AttributeError
  end.

(** [_make_item] is a static method of two positional parameters, [editor]
    and [project]; a call binds its arguments to them, and fails with
    [TypeError] when their number is not two. *)
Definition _make_item (args : list PyObject) : result StandardItem :=
  match args with
  | [editor; project] => make_item_body editor project
  | _ => Raise TypeError
  end.

(** [items]: the one batch it yields. *)
Definition items (h : Host) (self : Plugin) (query : string)
    : result (list StandardItem) :=
  found_matches ← matches h self query;
  let sorted_matches := sort_recent found_matches in
  mapM (fun project => _make_item [ObjProject project]) sorted_matches.


Definition row_name (row : IdeClass * string * string * list string * list string)
    : string :=
  match row with
  | (_, nm, _, _, _) => nm
  end.


(** ** Sample hosts

    Concrete hosts on which the definitions above are run. *)

Module Sample.

(** [<option name=".." value=".."/>] *)
Definition option_elem (nm v : string) : Element :=
  Elem "option" (<["name" := nm]> {["value" := v]}) [].

(** [<entry key=".."><value><RecentProjectMetaInfo>..] *)
Definition entry_elem (key : string) (info : list Element) : Element :=
  Elem "entry" {["key" := key]}
    [Elem "value" ∅ [Elem "RecentProjectMetaInfo" ∅ info]].

Definition stamped (key v : string) : Element :=
  entry_elem key [option_elem "projectOpenTimestamp" v].

(** [<application><component name=".."><option name="additionalInfo"><map>..] *)
Definition recent_xml (manager : string) (entries : list Element) : Element :=
  Elem "application" ∅
    [Elem "component" {["name" := manager]}
       [Elem "option" {["name" := "additionalInfo"]} [Elem "map" ∅ entries]]].

(** A Linux host of user [u] with [pycharm], [clion] and [rider] on its
    path and a matcher that looks for the query inside a field. *)
Definition host (dirs imls : string -> list string)
    (xml : string -> result Element) (present : string -> bool) : Host :=
  {| platform := "linux";
     home := "/home/u";
     which := fun cmd =>
       if String.eqb cmd "pycharm" || String.eqb cmd "clion"
          || String.eqb cmd "rider"
       then Some ("/usr/bin/" +:+ cmd) else None;
     glob := fun dir pattern =>
       if String.eqb dir "/home/u/.config" then dirs pattern
       else if String.eqb pattern "*.iml" then imls dir
       else [];
     parse := xml;
     path_exists := present;
     matcher_match := fun _ query fields => existsb (Str.contains query) fields;
     readConfig := fun _ => None;
     plugin_dir := "/usr/share/albert/jetbrains_projects" |}.

Definition pycharm_dirs (pattern : string) : list string :=
  if String.eqb pattern "JetBrains/PyCharm*/"
  then ["/home/u/.config/JetBrains/PyCharm2024.2";
        "/home/u/.config/JetBrains/PyCharm2023.1"]
  else if String.eqb pattern "JetBrains/CLion*/"
  then ["/home/u/.config/JetBrains/CLion2024.1"]
  else [].

Definition pycharm_file : string :=
  "/home/u/.config/JetBrains/PyCharm2024.2/options/recentProjects.xml".

Definition app_imls (names : list string) (dir : string) : list string :=
  if String.eqb dir "/home/u/work/app/.idea"
  then map (fun nm => dir +:+ "/" +:+ nm) names
  else [].

(** PyCharm's newest file lists [~/work/app]; CLion's file is malformed;
    the older PyCharm file is readable too. *)
Definition xml_a (file : string) : result Element :=
  if String.eqb file pycharm_file
  then Ok (recent_xml "RecentProjectsManager"
             [stamped "$USER_HOME$/work/app" "1700000000";
              stamped "/srv/gone" "1600000000"])
  else if String.eqb file
            "/home/u/.config/JetBrains/PyCharm2023.1/options/recentProjects.xml"
  then Ok (recent_xml "RecentProjectsManager" [stamped "/srv/old" "1500000000"])
  else if String.eqb file
            "/home/u/.config/JetBrains/CLion2024.1/options/recentProjects.xml"
  then Raise ParseError
  else Raise FileNotFoundError.

Definition present_a (p : string) : bool :=
  String.eqb p "/home/u/work/app" || String.eqb p "/srv/old".

Definition host_a : Host :=
  host pycharm_dirs (app_imls ["foo.iml"; "app.iml"]) xml_a present_a.

Definition pycharm : JetBrainsIde :=
  {| ide_class := ClsJetBrainsIde; ide_name := "PyCharm";
     icon := "/usr/share/albert/jetbrains_projects/icons/pycharm.svg";
     config_dir_prefixes := ["JetBrains/PyCharm"];
     binary := Some "pycharm" |}.

Definition clion : JetBrainsIde :=
  {| ide_class := ClsJetBrainsIde; ide_name := "CLion";
     icon := "/usr/share/albert/jetbrains_projects/icons/clion.svg";
     config_dir_prefixes := ["JetBrains/CLion"];
     binary := Some "clion" |}.

(** The recent-projects file cannot be read. *)
Definition host_denied : Host :=
  host pycharm_dirs (app_imls []) (fun _ => Raise PermissionError) present_a.

(** An entry without a timestamp, with a module file [foo.iml]. *)
Definition unstamped : Element := entry_elem "$USER_HOME$/work/app" [].

Definition host_unstamped : Host :=
  host pycharm_dirs (app_imls ["foo.iml"])
    (fun file =>
       if String.eqb file pycharm_file
       then Ok (recent_xml "RecentProjectsManager"
                  [unstamped; stamped "/srv/old" "1500000000"])
       else Raise FileNotFoundError)
    present_a.


(** Three projects, opened at 100, 300 and 200. *)
Definition host_three : Host :=
  host pycharm_dirs (app_imls [])
    (fun file =>
       if String.eqb file pycharm_file
       then Ok (recent_xml "RecentProjectsManager"
                  [stamped "/srv/p1" "100"; stamped "/srv/p2" "300";
                   stamped "/srv/p3" "200"])
       else Raise FileNotFoundError)
    (fun _ => true).

Definition project_at (key : string) (ts : Z) : Project :=
  new_project pycharm (Path.name key) key ts.

Definition rider : JetBrainsIde :=
  {| ide_class := ClsRider; ide_name := "Rider";
     icon := "/usr/share/albert/jetbrains_projects/icons/rider.svg";
     config_dir_prefixes := ["JetBrains/Rider"];
     binary := Some "rider" |}.

Definition rider_dirs (pattern : string) : list string :=
  if String.eqb pattern "JetBrains/Rider*/"
  then ["/home/u/.config/JetBrains/Rider2024.1"]
  else [].

(** Rider's directory holds [recentSolutions.xml], whose component is
    [solutions_manager], and a [recentProjects.xml] made of [projects]. *)
Definition host_rider (solutions_manager : string) (projects : result Element)
    : Host :=
  host rider_dirs (app_imls [])
    (fun file =>
       if String.eqb file
            "/home/u/.config/JetBrains/Rider2024.1/options/recentSolutions.xml"
       then Ok (recent_xml solutions_manager [stamped "/srv/sln" "42"])
       else if String.eqb file
                 "/home/u/.config/JetBrains/Rider2024.1/options/recentProjects.xml"
       then projects
       else Raise FileNotFoundError)
    (fun _ => true).

End Sample.


(** An entry whose timestamp is present and an integer. *)
Definition stamped_entry (entry : Element) : Prop :=
  exists v ts, entry_last_opened entry = Some v /\ Int.of_string v = Ok ts.


(** The setter of [match_path]; the host stores the value. *)
Definition set_match_path (self : Plugin) (value : bool) : Plugin :=
  {| fuzzy := fuzzy self; _match_path := value; editors := editors self |}.

(** The three ways in which the body of the outer loop fails. *)
Definition entry_failure (h : Host) (entry : Element) (e : exn) : Prop :=
  (e = KeyError /\ attrib entry !! "key" = None)
  \/ (exists key file,
        attrib entry !! "key" = Some key /\
        e = TypeError /\ entry_last_opened entry = None /\
        file ∈ glob h (Str.replace "$USER_HOME$" (home h) key +:+ "/.idea") "*.iml" /\
        module_name file <> Path.name (Str.replace "$USER_HOME$" (home h) key))
  \/ (exists v,
        e = ValueError /\ entry_last_opened entry = Some v /\
        Int.of_string v = Raise ValueError).


(** The setter of [match_path] with the call of [writeConfig] it makes: the
    key and the value handed to the host. *)
Definition match_path_setter (self : Plugin) (value : bool)
    : Plugin * (string * bool) :=
  (set_match_path self value, ("match_path", value)).

(** The getter of [match_path]. *)
Definition match_path (self : Plugin) : bool := _match_path self.

Definition supportsFuzzyMatching : bool := true.

Definition defaultTrigger : string := "jb ".

(** [configWidget]: one check box, bound to the property [match_path]. *)
Definition configWidget : list (gmap string string) :=
  [ <["type" := "checkbox"]>
      (<["property" := "match_path"]> {["label" := "Match path"]}) ].

(** * Properties *)

(** ** The monad and the loops *)

Lemma bind_Ok {A B : Type} (r : result A) (k : A -> result B) (b : B) :
  r ≫= k = Ok b <-> exists a, r = Ok a /\ k a = Ok b.
Proof.
  destruct r as [a|e]; simpl; split.
  - intros Hk. exists a. done.
  - intros (a' & [= <-] & Hk). done.
  - done.
  - intros (a' & [=] & _).
Qed.

Lemma for_each_app {A S : Type} (body : S -> A -> result S) (l1 l2 : list A)
    (s : S) :
  for_each body (l1 ++ l2) s = for_each body l1 s ≫= for_each body l2.
Proof.
  revert s. induction l1 as [|a l1 IH]; intros s; simpl.
  - done.
  - destruct (body s a) as [s'|e]; simpl; [apply IH | done].
Qed.

(** ** The newest directory *)

Lemma last_elem_of {A : Type} (l : list A) (x : A) : last l = Some x -> x ∈ l.
Proof.
  rewrite last_Some. intros [l' ->]. set_solver.
Qed.

Lemma last_is_Some_nonempty {A : Type} (l : list A) : l <> [] -> is_Some (last l).
Proof.
  intros Hl. destruct (last l) eqn:E; [by eexists|].
  apply last_None in E. done.
Qed.

Lemma sorted_last_max (dirs : list string) (newest : string) :
  last (sorted dirs) = Some newest ->
  newest ∈ dirs /\ forall d, d ∈ dirs -> String.le d newest.
Proof.
  unfold sorted. intros Hlast.
  pose proof (StronglySorted_merge_sort String.le dirs) as Hs.
  pose proof (merge_sort_Permutation String.le dirs) as Hp.
  apply last_Some in Hlast as [l' Hl']. rewrite Hl' in Hs, Hp.
  split.
  - rewrite <- Hp. set_solver.
  - intros d Hd. rewrite <- Hp in Hd.
    apply elem_of_app in Hd as [Hd|Hd].
    + eapply StronglySorted_app_1_elem_of; [exact Hs|exact Hd|set_solver].
    + apply list_elem_of_singleton in Hd as ->. done.
Qed.

Lemma sorted_nonempty (dirs : list string) : dirs <> [] -> sorted dirs <> [].
Proof.
  intros Hd Hs. apply Hd. apply Permutation_nil_r.
  rewrite <- Hs. unfold sorted. symmetry. apply merge_sort_Permutation.
Qed.

Lemma newest_exists (dirs : list string) :
  dirs <> [] ->
  exists newest, last_item (sorted dirs) = Ok newest /\
    newest ∈ dirs /\ forall d, d ∈ dirs -> String.le d newest.
Proof.
  intros Hd. destruct (last_is_Some_nonempty _ (sorted_nonempty _ Hd)) as [x Hx].
  exists x. unfold last_item. rewrite Hx. split; [done|].
  by apply sorted_last_max.
Qed.

(** ** The search through the prefixes *)

Section Search.

Context (h : Host).

Lemma list_projects_in_none (self : JetBrainsIde) (prefixes : list string) :
  (forall p, p ∈ prefixes -> matching h p = []) ->
  list_projects_in h self prefixes = Ok [].
Proof.
  induction prefixes as [|p ps IH]; intros Hnone; simpl; [done|].
  rewrite (Hnone p) by set_solver.
  apply IH. intros q Hq. apply Hnone. set_solver.
Qed.

Lemma list_projects_in_first (self : JetBrainsIde)
    (before after : list string) (p : string) :
  (forall q, q ∈ before -> matching h q = []) ->
  matching h p <> [] ->
  list_projects_in h self (before ++ p :: after)
  = read_newest h self (matching h p).
Proof.
  intros Hbefore Hp. induction before as [|q qs IH]; simpl.
  - destruct (matching h p); done.
  - rewrite (Hbefore q) by set_solver.
    apply IH. intros r Hr. apply Hbefore. set_solver.
Qed.

(** Every list of prefixes is of one of the two shapes. *)
Lemma prefixes_cases (prefixes : list string) :
  (forall p, p ∈ prefixes -> matching h p = []) \/
  exists before p after, prefixes = before ++ p :: after /\
    (forall q, q ∈ before -> matching h q = []) /\ matching h p <> [].
Proof.
  induction prefixes as [|p ps IH].
  - left. set_solver.
  - destruct (matching h p) eqn:Hp.
    + destruct IH as [IH|(before & q & after & -> & Hb & Hq)].
      * left. intros r Hr. apply elem_of_cons in Hr as [->|Hr]; auto.
      * right. exists (p :: before), q, after. split; [done|]. split; [|done].
        intros r Hr. apply elem_of_cons in Hr as [->|Hr]; auto.
    + right. exists [], p, ps. split; [done|]. split; [set_solver|].
      rewrite Hp. done.
Qed.

Lemma read_newest_eq (self : JetBrainsIde) (dirs : list string)
    (newest : string) :
  last_item (sorted dirs) = Ok newest ->
  read_newest h self dirs
  = try_except
      (_get_recent_projects_entries h self newest
         ≫= _parse_project_entries h self)
      caught [].
Proof. unfold read_newest. intros ->. done. Qed.

End Search.

(** ** Strings and paths *)

Example replace_examples :
  Str.replace ".iml" "" "a.iml.iml" = "a"
  /\ Str.replace "ab" "X" "aabababb" = "aXXXb"
  /\ Str.replace "" "x" "abc" = "xaxbxcx"
  /\ Str.replace "$USER_HOME$" "/home/u" "/srv/$USER_HOME$" = "/srv//home/u".
Proof. repeat split; reflexivity. Qed.

Example name_examples :
  Path.name "/a/b/." = "b" /\ Path.name "" = "" /\ Path.name "/" = ""
  /\ Path.name "a/.." = ".." /\ Path.name "a//b/" = "b"
  /\ Path.name "/home/u/work/app/.idea/foo.iml" = "foo.iml".
Proof. repeat split; reflexivity. Qed.

Example int_examples :
  Int.of_string " 17_0 " = Ok 170 /\ Int.of_string "-5" = Ok (-5)
  /\ Int.of_string "007" = Ok 7 /\ Int.of_string "" = Raise ValueError
  /\ Int.of_string "+ 5" = Raise ValueError
  /\ Int.of_string "1__0" = Raise ValueError
  /\ Int.of_string "1_" = Raise ValueError
  /\ Int.of_string "5 5" = Raise ValueError
  /\ Int.of_string "abc" = Raise ValueError
  /\ Int.of_value None = Raise TypeError.
Proof. repeat split; reflexivity. Qed.

(** A component inside a component of the same name gives its entries
    twice; the first timestamp tag decides, with or without a value. *)
Example findall_examples :
  let entry :=
    Elem "entry" {["key" := "k"]}
      [Elem "option" {["name" := "projectOpenTimestamp"]} [];
       Sample.option_elem "projectOpenTimestamp" "5"] in
  let inner := Elem "component" {["name" := "R"]} [entry] in
  let outer := Elem "component" {["name" := "R"]} [inner] in
  ElementPath.findall_entries "R"
    (Elem "application" ∅ [outer; Elem "entry" {["key" := "out"]} []])
  = [entry; entry]
  /\ ElementPath.findall_entries "R" inner = []
  /\ entry_last_opened entry = None.
Proof. repeat split; reflexivity. Qed.

Lemma string_app_cons (c : ascii) (a b : string) :
  String c a +:+ b = String c (a +:+ b).
Proof. reflexivity. Qed.

Lemma string_app_nil (b : string) : "" +:+ b = b.
Proof. reflexivity. Qed.

Lemma split_nonempty (sep : ascii) (s : string) : Str.split sep s <> [].
Proof.
  destruct s as [|c s]; simpl; [done|].
  destruct (Ascii.eqb c sep); [done|].
  destruct (Str.split sep s); done.
Qed.

Lemma split_app (sep : ascii) (a b : string) :
  Str.split sep (a +:+ String sep b) = Str.split sep a ++ Str.split sep b.
Proof.
  induction a as [|c a IH].
  - rewrite string_app_nil. simpl. rewrite Ascii.eqb_refl. done.
  - rewrite string_app_cons. simpl. rewrite IH.
    destruct (Ascii.eqb c sep); [done|].
    pose proof (split_nonempty sep a) as Hne.
    destruct (Str.split sep a); done.
Qed.

Lemma parts_app (a b : string) :
  Path.parts (a +:+ String "/" b) = Path.parts a ++ Path.parts b.
Proof. unfold Path.parts. rewrite split_app, filter_app. done. Qed.

Lemma last_app_cons {A : Type} (l1 l2 : list A) (x d : A) :
  List.last (l1 ++ x :: l2) d = List.last (x :: l2) d.
Proof.
  induction l1 as [|y l1 IH]; [done|].
  simpl app. rewrite <- IH. simpl. destruct (l1 ++ x :: l2) eqn:E; [|done].
  destruct l1; done.
Qed.

(** The name of a path that ends in [/work/app], whatever comes before. *)
Lemma name_work_app (prefix : string) : Path.name (prefix +:+ "/work/app") = "app".
Proof.
  unfold Path.name. change "/work/app" with (String "/" "work/app").
  rewrite parts_app. change (Path.parts "work/app") with ["work"; "app"].
  rewrite last_app_cons. done.
Qed.

Lemma replace_user_home (hm : string) :
  Str.replace "$USER_HOME$" hm "$USER_HOME$/work/app" = hm +:+ "/work/app".
Proof. reflexivity. Qed.

Lemma int_1700000000 : Int.of_string "1700000000" = Ok 1700000000.
Proof. reflexivity. Qed.

Lemma prefix_cons (a b : ascii) (s t : string) :
  String.prefix (String a s) (String b t) = Ascii.eqb a b && String.prefix s t.
Proof.
  change (String.prefix (String a s) (String b t))
    with (if ascii_dec a b then String.prefix s t else false).
  destruct (ascii_dec a b) as [->|Hne].
  - rewrite Ascii.eqb_refl. done.
  - apply Ascii.eqb_neq in Hne. rewrite Hne. done.
Qed.


Lemma prefix_nil_l (s : string) : String.prefix "" s = true.
Proof. destruct s; reflexivity. Qed.



(** ** The parser of the entries *)

Lemma of_string_truthy (v : string) (ts : Z) :
  Int.of_string v = Ok ts -> Str.truthy v = true.
Proof. destruct v; [discriminate|done]. Qed.

Section Parser.

Context (h : Host) (self : JetBrainsIde).

Lemma module_step_acc (pp pn : string) (opened : option string)
    (acc : list Project) (f : string) :
  module_step self pp pn opened acc f
  = module_step self pp pn opened [] f ≫= (fun l => Ok (acc ++ l)).
Proof.
  unfold module_step.
  destruct (negb (String.eqb (module_name f) pn)); simpl.
  - destruct (Int.of_value opened) as [ts|e]; done.
  - by rewrite app_nil_r.
Qed.

(** The inner loop only appends. *)
Lemma module_loop_acc (pp pn : string) (opened : option string)
    (files : list string) (acc : list Project) :
  for_each (module_step self pp pn opened) files acc
  = for_each (module_step self pp pn opened) files [] ≫= (fun l => Ok (acc ++ l)).
Proof.
  revert acc. induction files as [|f files IH]; intros acc; simpl.
  - by rewrite app_nil_r.
  - rewrite module_step_acc.
    destruct (module_step self pp pn opened [] f) as [l|e]; simpl; [|done].
    rewrite IH, (IH l).
    destruct (for_each _ files []) as [l'|e]; simpl; [|done].
    by rewrite <- app_assoc.
Qed.

Lemma module_step_some (pp pn v : string) (ts : Z) (acc : list Project)
    (f : string) :
  Int.of_string v = Ok ts ->
  module_step self pp pn (Some v) acc f
  = Ok (acc ++ if negb (String.eqb (module_name f) pn)
               then [new_project self (module_name f) pp ts] else []).
Proof.
  intros Hv. unfold module_step.
  destruct (negb (String.eqb (module_name f) pn)); simpl.
  - by rewrite Hv.
  - by rewrite app_nil_r.
Qed.

Lemma module_step_none (pp pn : string) (acc : list Project) (f : string) :
  module_step self pp pn None acc f
  = if String.eqb (module_name f) pn then Ok acc else Raise TypeError.
Proof. unfold module_step. by destruct (String.eqb (module_name f) pn). Qed.

(** With an integer timestamp the inner loop adds one project for every
    module file whose name differs from the directory's. *)
Lemma module_loop_ok (pp pn v : string) (ts : Z) (files : list string)
    (acc : list Project) :
  Int.of_string v = Ok ts ->
  for_each (module_step self pp pn (Some v)) files acc
  = Ok (acc ++
        map (fun f => new_project self (module_name f) pp ts)
            (List.filter (fun f => negb (String.eqb (module_name f) pn)) files)).
Proof.
  intros Hv. revert acc. induction files as [|f files IH]; intros acc; simpl.
  - by rewrite app_nil_r.
  - rewrite (module_step_some _ _ _ _ _ _ Hv). simpl. rewrite IH.
    destruct (negb (String.eqb (module_name f) pn)); simpl.
    + by rewrite <- app_assoc.
    + by rewrite app_nil_r.
Qed.

(** Without a timestamp the inner loop stops at the first module file whose
    name differs from the directory's. *)
Lemma module_loop_none (pp pn : string) (files : list string)
    (acc : list Project) :
  for_each (module_step self pp pn None) files acc
  = if forallb (fun f => String.eqb (module_name f) pn) files
    then Ok acc else Raise TypeError.
Proof.
  induction files as [|f files IH]; simpl; [done|].
  rewrite module_step_none.
  destruct (String.eqb (module_name f) pn); simpl; [apply IH|done].
Qed.

Lemma entry_step_acc (acc : list Project) (entry : Element) :
  entry_step h self acc entry
  = entry_step h self [] entry ≫= (fun l => Ok (acc ++ l)).
Proof.
  unfold entry_step.
  destruct (getitem (attrib entry) "key") as [key|e]; simpl; [|done].
  destruct (Str.truthy _ && truthy_opt _); simpl.
  - destruct (Int.of_value _) as [ts|e]; simpl; [|done].
    rewrite module_loop_acc. rewrite (module_loop_acc _ _ _ _ [_]).
    destruct (for_each _ _ []) as [l|e]; simpl; [|done].
    by rewrite <- app_assoc.
  - rewrite module_loop_acc.
    destruct (for_each _ _ []) as [l|e]; done.
Qed.

Lemma parse_acc (entries : list Element) (acc : list Project) :
  for_each (entry_step h self) entries acc
  = _parse_project_entries h self entries ≫= (fun l => Ok (acc ++ l)).
Proof.
  unfold _parse_project_entries.
  revert acc. induction entries as [|e es IH]; intros acc; simpl.
  - by rewrite app_nil_r.
  - rewrite entry_step_acc.
    destruct (entry_step h self [] e) as [l|x]; simpl; [|done].
    rewrite IH, (IH l).
    destruct (for_each _ es []) as [l'|x]; simpl; [|done].
    by rewrite <- app_assoc.
Qed.

Lemma parse_cons (entry : Element) (entries : list Element) :
  _parse_project_entries h self (entry :: entries)
  = entry_step h self [] entry ≫= (fun l =>
      _parse_project_entries h self entries ≫= (fun l' => Ok (l ++ l'))).
Proof.
  unfold _parse_project_entries at 1. simpl.
  destruct (entry_step h self [] entry) as [l|x]; simpl; [|done].
  apply parse_acc.
Qed.

(** What an entry with key [key] and integer timestamp [v] adds. *)
Lemma entry_step_ok (acc : list Project) (entry : Element) (key v : string)
    (ts : Z) :
  attrib entry !! "key" = Some key ->
  entry_last_opened entry = Some v ->
  Int.of_string v = Ok ts ->
  let project_path := Str.replace "$USER_HOME$" (home h) key in
  let project_name := Path.name project_path in
  let files := glob h (project_path +:+ "/.idea") "*.iml" in
  entry_step h self acc entry
  = Ok (acc
        ++ (if Str.truthy project_path
            then [new_project self project_name project_path ts] else [])
        ++ map (fun f => new_project self (module_name f) project_path ts)
             (List.filter
                (fun f => negb (String.eqb (module_name f) project_name))
                files)).
Proof.
  intros Hkey Hopened Hv. simpl. unfold entry_step, getitem.
  rewrite Hkey. simpl. rewrite Hopened. simpl.
  rewrite (of_string_truthy _ _ Hv), andb_true_r.
  destruct (Str.truthy _); simpl.
  - rewrite Hv. simpl. rewrite (module_loop_ok _ _ _ _ _ _ Hv).
    by rewrite <- app_assoc.
  - by rewrite (module_loop_ok _ _ _ _ _ _ Hv).
Qed.

(** What an entry without a timestamp does. *)
Lemma entry_step_none (acc : list Project) (entry : Element) (key : string) :
  attrib entry !! "key" = Some key ->
  entry_last_opened entry = None ->
  let project_path := Str.replace "$USER_HOME$" (home h) key in
  let project_name := Path.name project_path in
  let files := glob h (project_path +:+ "/.idea") "*.iml" in
  entry_step h self acc entry
  = if forallb (fun f => String.eqb (module_name f) project_name) files
    then Ok acc else Raise TypeError.
Proof.
  intros Hkey Hopened. simpl. unfold entry_step, getitem.
  rewrite Hkey. simpl. rewrite Hopened. simpl. rewrite andb_false_r. simpl.
  apply module_loop_none.
Qed.

End Parser.

(** ** The registry *)

Section Registry.

Context (h : Host).

Lemma find_binary_Some (binaries : list string) (b : string) :
  _find_binary h binaries = Some b <->
  exists before after, binaries = before ++ b :: after /\
    (forall c, c ∈ before -> found h c = false) /\ found h b = true.
Proof.
  induction binaries as [|c cs IH]; simpl.
  - split; [done|]. intros (before & after & Heq & _). by destruct before.
  - destruct (found h c) eqn:Hc.
    + split.
      * intros [= ->]. exists [], cs. split; [done|]. split; [|done].
        by intros c' Hc'%elem_of_nil.
      * intros ([|c' before] & after & Heq & Hb & Hf).
        -- by injection Heq as -> _.
        -- injection Heq as <- _. rewrite Hb in Hc; [done|by constructor].
    + rewrite IH. split.
      * intros (before & after & -> & Hb & Hf).
        exists (c :: before), after. split; [done|]. split; [|done].
        intros c' Hc'. apply elem_of_cons in Hc' as [->|Hc']; auto.
      * intros ([|c' before] & after & Heq & Hb & Hf).
        -- injection Heq as -> _. congruence.
        -- injection Heq as <- ->. exists before, after.
           split; [done|]. split; [|done]. intros c' Hc'. apply Hb.
           by constructor.
Qed.

Lemma find_binary_None (binaries : list string) :
  _find_binary h binaries = None <->
  forall c, c ∈ binaries -> found h c = false.
Proof.
  induction binaries as [|c cs IH]; simpl.
  - split; [|done]. by intros _ c Hc%elem_of_nil.
  - destruct (found h c) eqn:Hc.
    + split; [done|]. intros Hall. rewrite Hall in Hc; [done|by constructor].
    + rewrite IH. split.
      * intros Hall c' Hc'. apply elem_of_cons in Hc' as [->|Hc']; auto.
      * intros Hall c' Hc'. apply Hall. by constructor.
Qed.

Lemma construct_binary (icons_dir : string)
    (row : IdeClass * string * string * list string * list string) :
  binary (construct h icons_dir row) = _find_binary h (row_binaries row).
Proof. by destruct row as [[[[cls nm] svg] prefixes] binaries]. Qed.

Lemma construct_name (icons_dir : string)
    (row : IdeClass * string * string * list string * list string) :
  ide_name (construct h icons_dir row) = row_name row.
Proof. by destruct row as [[[[cls nm] svg] prefixes] binaries]. Qed.

Lemma get_editors_elem (icons_dir : string) (e : JetBrainsIde) :
  e ∈ get_editors h icons_dir <->
  exists row, row ∈ editor_table /\ e = construct h icons_dir row /\
    is_Some (binary e).
Proof.
  unfold get_editors. rewrite list_elem_of_In, List.filter_In, in_map_iff.
  unfold has_binary. split.
  - intros [(row & <- & Hrow) Hb]. exists row.
    rewrite list_elem_of_In. split; [done|]. split; [done|].
    destruct (binary _); [by eexists|done].
  - intros (row & Hrow & -> & [b Hb]). split.
    + exists row. by rewrite <- list_elem_of_In.
    + by rewrite Hb.
Qed.

End Registry.

Lemma table_names_NoDup : NoDup (map row_name editor_table).
Proof. apply (bool_decide_unpack _). vm_compute. done. Qed.

Lemma NoDup_map_inj {A B : Type} (f : A -> B) (l : list A) (x y : A) :
  NoDup (map f l) -> x ∈ l -> y ∈ l -> f x = f y -> x = y.
Proof.
  induction l as [|a l IH]; simpl; intros Hnd Hx Hy Hf; [by inversion Hx|].
  apply NoDup_cons in Hnd as [Ha Hnd].
  apply elem_of_cons in Hx as [->|Hx]; apply elem_of_cons in Hy as [->|Hy].
  - done.
  - exfalso. apply Ha. rewrite Hf. apply list_elem_of_In, in_map.
    by apply list_elem_of_In.
  - exfalso. apply Ha. rewrite <- Hf. apply list_elem_of_In, in_map.
    by apply list_elem_of_In.
  - by apply IH.
Qed.

Lemma filter_length_eq {A : Type} (f : A -> bool) (l : list A) :
  length (List.filter f l) = length l <-> forall x, x ∈ l -> f x = true.
Proof.
  induction l as [|a l IH]; simpl.
  - split; [|done]. by intros _ x Hx%elem_of_nil.
  - pose proof (List.filter_length_le f l) as Hle.
    destruct (f a) eqn:Ha; simpl.
    + split.
      * intros [= Hlen] x Hx. apply elem_of_cons in Hx as [->|Hx]; [done|].
        by apply IH.
      * intros Hall. f_equal. apply IH. intros x Hx. apply Hall.
        by constructor.
    + split; [lia|]. intros Hall. rewrite Hall in Ha; [done|by constructor].
Qed.

Lemma get_editors_full (h : Host) (icons_dir : string) :
  length (get_editors h icons_dir) = length editor_table <->
  forall row, row ∈ editor_table ->
    is_Some (_find_binary h (row_binaries row)).
Proof.
  unfold get_editors.
  rewrite <- (length_map (construct h icons_dir) editor_table).
  rewrite filter_length_eq. split.
  - intros Hall row Hrow.
    specialize (Hall (construct h icons_dir row)).
    unfold has_binary in Hall. rewrite construct_binary in Hall.
    destruct (_find_binary h (row_binaries row)); [by eexists|].
    discriminate Hall. apply list_elem_of_In, in_map. by apply list_elem_of_In.
  - intros Hall e He.
    apply list_elem_of_In, in_map_iff in He as (row & <- & Hrow).
    apply list_elem_of_In in Hrow.
    destruct (Hall row Hrow) as [b Hb].
    unfold has_binary. by rewrite construct_binary, Hb.
Qed.

(** C10. The registry built at startup: a variant of the table none of whose
    candidate executables the host finds is not in it; every variant in it
    comes from a row of the table and its executable is the first candidate
    of that row, in the row's order, that the host finds; it is at most as
    long as the table, and as long exactly when every row has a candidate
    that the host finds. *)
Theorem get_editors_registry (h : Host) (icons_dir : string) :
  let registry := get_editors h icons_dir in
  (forall row, row ∈ editor_table ->
     (forall b, b ∈ row_binaries row -> found h b = false) ->
     (construct h icons_dir row ∉ registry) /\
     (forall e, e ∈ registry -> ide_name e <> row_name row))
  /\ (forall e, e ∈ registry ->
        exists row before b after,
          row ∈ editor_table /\ e = construct h icons_dir row /\
          binary e = Some b /\
          row_binaries row = before ++ b :: after /\
          (forall c, c ∈ before -> found h c = false) /\ found h b = true)
  /\ (length registry <= length editor_table)%nat
  /\ (length registry = length editor_table <->
      forall row, row ∈ editor_table ->
        exists b, b ∈ row_binaries row /\ found h b = true).
Proof.
  intros registry. subst registry. split; [|split; [|split]].
  - intros row Hrow Hnone. apply find_binary_None in Hnone.
    assert (forall e, e ∈ get_editors h icons_dir ->
                      ide_name e <> row_name row) as Hnames.
    { intros e He Hname.
      apply get_editors_elem in He as (row' & Hrow' & -> & [b Hb]).
      rewrite construct_name in Hname.
      assert (row' = row) as ->.
      { eapply NoDup_map_inj; eauto using table_names_NoDup. }
      rewrite construct_binary in Hb. congruence. }
    split; [|done]. intros Hin. apply (Hnames _ Hin), construct_name.
  - intros e He. apply get_editors_elem in He as (row & Hrow & -> & [b Hb]).
    pose proof Hb as Hb'. rewrite construct_binary in Hb'.
    apply find_binary_Some in Hb' as (before & after & Heq & Hbefore & Hf).
    exists row, before, b, after. done.
  - unfold get_editors. rewrite <- (length_map (construct h icons_dir)).
    apply List.filter_length_le.
  - rewrite get_editors_full. split.
    + intros Hall row Hrow. destruct (Hall row Hrow) as [b Hb].
      apply find_binary_Some in Hb as (before & after & -> & _ & Hf).
      exists b. split; [|done]. apply elem_of_app. right. by constructor.
    + intros Hall row Hrow. destruct (Hall row Hrow) as (b & Hb & Hf).
      destruct (_find_binary h (row_binaries row)) eqn:Hnone; [by eexists|].
      rewrite find_binary_None in Hnone. rewrite Hnone in Hf by done. done.
Qed.

Lemma parse_app (h : Host) (self : JetBrainsIde) (l1 l2 : list Element) :
  _parse_project_entries h self (l1 ++ l2)
  = _parse_project_entries h self l1 ≫= (fun a =>
      _parse_project_entries h self l2 ≫= (fun b => Ok (a ++ b))).
Proof.
  unfold _parse_project_entries at 1. rewrite for_each_app.
  fold (_parse_project_entries h self l1).
  destruct (_parse_project_entries h self l1) as [a|e]; simpl; [|done].
  apply parse_acc.
Qed.

Lemma parse_singleton (h : Host) (self : JetBrainsIde) (entry : Element) :
  _parse_project_entries h self [entry] = entry_step h self [] entry.
Proof.
  unfold _parse_project_entries. simpl.
  by destruct (entry_step h self [] entry).
Qed.

Lemma truthy_app (a : string) (c : ascii) (b : string) :
  Str.truthy (a +:+ String c b) = true.
Proof. by destruct a. Qed.

(** C4. An entry whose key is [$USER_HOME$/work/app] and whose open
    timestamp is [1700000000] makes the parser emit the project of path
    [<home>/work/app], name [app] and timestamp 1700000000: it heads what the
    parser returns for that entry, and it is in what the parser returns for
    any list of entries that holds it. *)
Theorem parse_user_home_entry (h : Host) (self : JetBrainsIde) (entry : Element) :
  attrib entry !! "key" = Some "$USER_HOME$/work/app" ->
  entry_last_opened entry = Some "1700000000" ->
  let project :=
    {| name := "app"; path := home h +:+ "/work/app";
       last_opened := 1700000000; ide := self |} in
  (exists modules,
     _parse_project_entries h self [entry] = Ok (project :: modules))
  /\ (forall before after projects,
        _parse_project_entries h self (before ++ entry :: after) = Ok projects ->
        project ∈ projects).
Proof.
  intros Hkey Hopened project.
  pose proof (entry_step_ok h self [] entry _ _ _ Hkey Hopened int_1700000000)
    as Hstep.
  cbv zeta in Hstep. rewrite replace_user_home in Hstep.
  change "/work/app" with (String "/" "work/app") in Hstep.
  rewrite truthy_app in Hstep.
  change (String "/" "work/app") with "/work/app" in Hstep.
  rewrite name_work_app in Hstep.
  rewrite <- parse_singleton in Hstep.
  split.
  - eexists. exact Hstep.
  - intros before after projects Hall.
    rewrite parse_app in Hall.
    apply bind_Ok in Hall as (a & _ & Hall).
    change (entry :: after) with ([entry] ++ after) in Hall.
    rewrite parse_app, Hstep in Hall. simpl in Hall.
    apply bind_Ok in Hall as (b & Hb & [= <-]).
    apply bind_Ok in Hb as (c & _ & [= <-]).
    apply elem_of_app. right. by constructor.
Qed.

Lemma parse_user_home_entry_witness :
  exists modules,
    _parse_project_entries Sample.host_a Sample.pycharm
      [Sample.stamped "$USER_HOME$/work/app" "1700000000"]
    = Ok ({| name := "app"; path := "/home/u/work/app";
             last_opened := 1700000000; ide := Sample.pycharm |} :: modules).
Proof.
  apply (parse_user_home_entry Sample.host_a Sample.pycharm
           (Sample.stamped "$USER_HOME$/work/app" "1700000000")).
  - reflexivity.
  - reflexivity.
Defined.




(** C2. An entry without the timestamp tag whose project has a module file
    [foo.iml]: the parser raises [TypeError], and so does [list_projects];
    no project of the entries after it is returned either. *)
Theorem unstamped_entry_raises :
  entry_last_opened Sample.unstamped = None
  /\ glob Sample.host_unstamped "/home/u/work/app/.idea" "*.iml"
     = ["/home/u/work/app/.idea/foo.iml"]
  /\ _parse_project_entries Sample.host_unstamped Sample.pycharm
       [Sample.unstamped; Sample.stamped "/srv/old" "1500000000"]
     = Raise TypeError
  /\ list_projects Sample.host_unstamped Sample.pycharm = Raise TypeError.
Proof. repeat split; reflexivity. Qed.

(** ** What [list_projects] reads *)

Lemma for_each_ext {A S : Type} (f g : S -> A -> result S) (l : list A) (s : S) :
  (forall s' a, f s' a = g s' a) -> for_each f l s = for_each g l s.
Proof.
  intros Hfg. revert s. induction l as [|a l IH]; intros s; simpl; [done|].
  rewrite Hfg. destruct (g s a) as [s'|e]; simpl; [apply IH|done].
Qed.

Section SameFiles.

(** Two hosts with the same home directory, the same platform and the same
    directory listings. *)
Context (h h' : Host).
Hypothesis same_home : home h' = home h.
Hypothesis same_platform : platform h' = platform h.
Hypothesis same_glob : forall dir pattern, glob h' dir pattern = glob h dir pattern.

Lemma entry_step_same (self : JetBrainsIde) (acc : list Project)
    (entry : Element) :
  entry_step h' self acc entry = entry_step h self acc entry.
Proof.
  unfold entry_step. rewrite same_home.
  destruct (getitem (attrib entry) "key") as [key|e]; simpl; [|done].
  by rewrite same_glob.
Qed.

Lemma parse_entries_same (self : JetBrainsIde) (entries : list Element) :
  _parse_project_entries h' self entries = _parse_project_entries h self entries.
Proof.
  unfold _parse_project_entries. apply for_each_ext.
  intros. apply entry_step_same.
Qed.

Lemma matching_same (p : string) : matching h' p = matching h p.
Proof.
  unfold matching, _config_dir. by rewrite same_home, same_platform, same_glob.
Qed.

Lemma read_newest_same (self : JetBrainsIde) (dirs : list string)
    (newest : string) :
  last_item (sorted dirs) = Ok newest ->
  parse h' (recent_projects_file self newest)
  = parse h (recent_projects_file self newest) ->
  read_newest h' self dirs = read_newest h self dirs.
Proof.
  intros Hnewest Hfile. rewrite !(read_newest_eq _ _ _ _ Hnewest).
  unfold _get_recent_projects_entries. rewrite Hfile.
  destruct (parse h _) as [root|e]; simpl; [|done].
  by rewrite parse_entries_same.
Qed.

Lemma list_projects_in_same (self : JetBrainsIde) (prefixes : list string) :
  (forall p newest, p ∈ prefixes ->
     last_item (sorted (matching h p)) = Ok newest ->
     parse h' (recent_projects_file self newest)
     = parse h (recent_projects_file self newest)) ->
  list_projects_in h' self prefixes = list_projects_in h self prefixes.
Proof.
  induction prefixes as [|p ps IH]; intros Hfiles; simpl; [done|].
  rewrite matching_same. destruct (matching h p) as [|d ds] eqn:Hp.
  - apply IH. intros q newest Hq. apply Hfiles. by constructor.
  - destruct (newest_exists (d :: ds)) as (newest & Hnewest & _); [done|].
    apply (read_newest_same _ _ newest); [done|].
    apply (Hfiles p); [by constructor|]. by rewrite Hp.
Qed.

End SameFiles.

(** C6. [list_projects] goes through the prefixes in their order.  When no
    prefix has a matching directory it returns the empty list.  Otherwise,
    for the first prefix that has one, it reads the recent-projects file of
    one directory, the greatest of the directories that match that prefix,
    and returns what the [try] statement makes of it: no later prefix and no
    other directory is looked at, so a host that differs only in other files
    gives the same result. *)
Theorem list_projects_first_prefix (h : Host) (self : JetBrainsIde) :
  ((forall p, p ∈ config_dir_prefixes self -> matching h p = []) ->
   list_projects h self = Ok [])
  /\ (forall before p after,
        config_dir_prefixes self = before ++ p :: after ->
        (forall q, q ∈ before -> matching h q = []) ->
        matching h p <> [] ->
        exists newest,
          newest ∈ matching h p
          /\ (forall d, d ∈ matching h p -> String.le d newest)
          /\ list_projects h self
             = try_except
                 (_get_recent_projects_entries h self newest
                    ≫= _parse_project_entries h self)
                 caught []
          /\ (forall h',
                home h' = home h -> platform h' = platform h ->
                (forall dir pattern, glob h' dir pattern = glob h dir pattern) ->
                parse h' (recent_projects_file self newest)
                = parse h (recent_projects_file self newest) ->
                list_projects h' self = list_projects h self)).
Proof.
  split.
  - apply list_projects_in_none.
  - intros before p after Hprefixes Hbefore Hp.
    destruct (newest_exists _ Hp) as (newest & Hnewest & Hin & Hmax).
    exists newest. split; [done|]. split; [done|].
    assert (list_projects h self = read_newest h self (matching h p)) as Hread.
    { unfold list_projects. rewrite Hprefixes.
      by apply list_projects_in_first. }
    split.
    + rewrite Hread. by apply read_newest_eq.
    + intros h' Hhome Hplatform Hglob Hfile.
      rewrite Hread. unfold list_projects. rewrite Hprefixes.
      rewrite list_projects_in_first.
      * rewrite (matching_same h h') by done.
        by apply (read_newest_same h h' Hhome Hglob self _ newest).
      * intros q Hq. rewrite (matching_same h h') by done. by apply Hbefore.
      * by rewrite (matching_same h h').
Qed.

Lemma list_projects_first_prefix_witness :
  exists newest,
    newest ∈ matching Sample.host_a "JetBrains/PyCharm"
    /\ (forall d, d ∈ matching Sample.host_a "JetBrains/PyCharm" ->
        String.le d newest)
    /\ list_projects Sample.host_a Sample.pycharm
       = try_except
           (_get_recent_projects_entries Sample.host_a Sample.pycharm newest
              ≫= _parse_project_entries Sample.host_a Sample.pycharm)
           caught []
    /\ (forall h',
          home h' = home Sample.host_a ->
          platform h' = platform Sample.host_a ->
          (forall dir pattern,
             glob h' dir pattern = glob Sample.host_a dir pattern) ->
          parse h' (recent_projects_file Sample.pycharm newest)
          = parse Sample.host_a (recent_projects_file Sample.pycharm newest) ->
          list_projects h' Sample.pycharm
          = list_projects Sample.host_a Sample.pycharm).
Proof.
  apply (proj2 (list_projects_first_prefix Sample.host_a Sample.pycharm)
           [] "JetBrains/PyCharm" []).
  - reflexivity.
  - intros q Hq. by apply elem_of_nil in Hq.
  - vm_compute. discriminate.
Defined.

(** ** Failures of [list_projects] *)

Lemma findall_entries_key (manager : string) (root entry : Element) :
  entry ∈ ElementPath.findall_entries manager root ->
  is_Some (attrib entry !! "key").
Proof.
  unfold ElementPath.findall_entries, ElementPath.attr_set.
  rewrite list_elem_of_filter. by intros [Hkey _].
Qed.

Lemma parse_entries_stamped (h : Host) (self : JetBrainsIde)
    (entries : list Element) :
  Forall (fun entry => is_Some (attrib entry !! "key")) entries ->
  Forall stamped_entry entries ->
  exists projects, _parse_project_entries h self entries = Ok projects.
Proof.
  induction entries as [|entry entries IH]; intros Hkeys Hstamps.
  - by exists [].
  - apply Forall_cons in Hkeys as [[key Hkey] Hkeys].
    apply Forall_cons in Hstamps as [(v & ts & Hopened & Hv) Hstamps].
    destruct (IH Hkeys Hstamps) as [rest Hrest].
    rewrite parse_cons, (entry_step_ok h self [] entry key v ts) by done.
    simpl. rewrite Hrest. simpl. by eexists.
Qed.

Lemma try_except_not_caught {A : Type} (r : result A) (v : A) (e : exn) :
  try_except r caught v = Raise e -> caught e = false.
Proof.
  destruct r as [a|e']; simpl; [done|].
  destruct (caught e') eqn:He'; [done|]. by intros [= <-].
Qed.

Lemma list_projects_cases (h : Host) (self : JetBrainsIde) :
  list_projects h self = Ok [] \/
  exists dirs, dirs <> [] /\ list_projects h self = read_newest h self dirs.
Proof.
  unfold list_projects.
  destruct (prefixes_cases h (config_dir_prefixes self))
    as [Hnone|(before & p & after & -> & Hbefore & Hp)].
  - left. by apply list_projects_in_none.
  - right. exists (matching h p). split; [done|].
    by apply list_projects_in_first.
Qed.

Lemma get_projects_of_app (h : Host) (l1 l2 : list JetBrainsIde) :
  _get_projects_of h (l1 ++ l2)
  = _get_projects_of h l1 ≫= (fun a =>
      _get_projects_of h l2 ≫= (fun b => Ok (a ++ b))).
Proof.
  induction l1 as [|e l1 IH]; simpl.
  - by destruct (_get_projects_of h l2).
  - destruct (list_projects h e) as [ps|x]; simpl; [|done].
    rewrite IH. destruct (_get_projects_of h l1) as [a|x]; simpl; [|done].
    destruct (_get_projects_of h l2) as [b|x]; simpl; [|done].
    by rewrite app_assoc.
Qed.

(** C1, as the code has it. [list_projects] returns the empty list when no
    prefix has a matching directory, and when reading the recent-projects
    file of the chosen directory raises a parse error or a file-not-found
    error; it returns a list of projects when the file is read and every
    entry in it has an integer timestamp; it never raises either of the two
    errors.  A variant for which it returns the empty list leaves the
    aggregate over the editors as it is without that variant. *)
Theorem list_projects_caught (h : Host) (self : JetBrainsIde) :
  ((forall p, p ∈ config_dir_prefixes self -> matching h p = []) ->
   list_projects h self = Ok [])
  /\ (forall before p after newest e,
        config_dir_prefixes self = before ++ p :: after ->
        (forall q, q ∈ before -> matching h q = []) ->
        matching h p <> [] ->
        last_item (sorted (matching h p)) = Ok newest ->
        parse h (recent_projects_file self newest) = Raise e ->
        e = ParseError \/ e = FileNotFoundError ->
        list_projects h self = Ok [])
  /\ (forall before p after newest root,
        config_dir_prefixes self = before ++ p :: after ->
        (forall q, q ∈ before -> matching h q = []) ->
        matching h p <> [] ->
        last_item (sorted (matching h p)) = Ok newest ->
        parse h (recent_projects_file self newest) = Ok root ->
        Forall stamped_entry
          (ElementPath.findall_entries (recent_manager (ide_class self)) root) ->
        exists projects, list_projects h self = Ok projects)
  /\ list_projects h self <> Raise ParseError
  /\ list_projects h self <> Raise FileNotFoundError
  /\ (list_projects h self = Ok [] ->
      forall editors_before editors_after,
        _get_projects_of h (editors_before ++ self :: editors_after)
        = _get_projects_of h (editors_before ++ editors_after)).
Proof.
  assert (forall e, list_projects h self = Raise e -> caught e = false) as Hnot.
  { intros e. destruct (list_projects_cases h self) as [->|(dirs & _ & ->)].
    - done.
    - apply try_except_not_caught. }
  split; [apply list_projects_in_none|].
  split; [|split; [|split; [|split]]].
  - intros before p after newest e Hprefixes Hbefore Hp Hnewest Hparse He.
    unfold list_projects. rewrite Hprefixes, list_projects_in_first by done.
    rewrite (read_newest_eq _ _ _ _ Hnewest).
    unfold _get_recent_projects_entries. rewrite Hparse. simpl.
    by destruct He as [-> | ->].
  - intros before p after newest root Hprefixes Hbefore Hp Hnewest Hparse
      Hstamped.
    unfold list_projects. rewrite Hprefixes, list_projects_in_first by done.
    rewrite (read_newest_eq _ _ _ _ Hnewest).
    unfold _get_recent_projects_entries. rewrite Hparse. simpl.
    destruct (parse_entries_stamped h self
                (ElementPath.findall_entries (recent_manager (ide_class self))
                   root)) as [projects ->]; [|done|by exists projects].
    apply Forall_forall. intros entry. apply findall_entries_key.
  - intros Hraise. by apply Hnot in Hraise.
  - intros Hraise. by apply Hnot in Hraise.
  - intros Hempty l1 l2.
    rewrite !get_projects_of_app. simpl. rewrite Hempty. simpl.
    destruct (_get_projects_of h l1) as [a|x]; simpl; [|done].
    by destruct (_get_projects_of h l2).
Qed.

Lemma list_projects_caught_witness :
  list_projects Sample.host_a Sample.clion = Ok [].
Proof.
  apply (proj1 (proj2 (list_projects_caught Sample.host_a Sample.clion))
           [] "JetBrains/CLion" []
           "/home/u/.config/JetBrains/CLion2024.1" ParseError).
  - reflexivity.
  - intros q Hq. by apply elem_of_nil in Hq.
  - vm_compute. discriminate.
  - reflexivity.
  - reflexivity.
  - by left.
Defined.

(** C1, as stated, fails: on a host whose recent-projects file cannot be
    read, [list_projects] raises [PermissionError] to its caller. *)
Lemma list_projects_raises_permission_error :
  parse Sample.host_denied
    (recent_projects_file Sample.pycharm
       "/home/u/.config/JetBrains/PyCharm2024.2")
  = Raise PermissionError
  /\ list_projects Sample.host_denied Sample.pycharm = Raise PermissionError
  /\ _get_projects_of Sample.host_denied [Sample.clion; Sample.pycharm]
     = Raise PermissionError.
Proof. repeat split; reflexivity. Qed.

(** ** The candidates of a query *)

Lemma filter_elem {A : Type} (f : A -> bool) (l : list A) (x : A) :
  x ∈ List.filter f l <-> x ∈ l /\ f x = true.
Proof. by rewrite !list_elem_of_In, List.filter_In. Qed.

Lemma get_projects_of_elem (h : Host) (eds : list JetBrainsIde)
    (projects : list Project) :
  _get_projects_of h eds = Ok projects ->
  forall p, p ∈ projects <->
    path_exists h (path p) = true /\
    exists editor parsed,
      editor ∈ eds /\ list_projects h editor = Ok parsed /\ p ∈ parsed.
Proof.
  revert projects. induction eds as [|e eds IH]; intros projects; simpl.
  - intros [= <-] p. split; [by intros Hp%elem_of_nil|].
    by intros (_ & editor & parsed & He%elem_of_nil & _).
  - intros Hall.
    apply bind_Ok in Hall as (parsed & Hparsed & Hall).
    apply bind_Ok in Hall as (others & Hothers & [= <-]).
    intros p. rewrite elem_of_app, filter_elem, (IH others Hothers). split.
    + intros [[Hp Hex]|(Hex & editor & parsed' & He & Hl & Hp)].
      * split; [done|]. exists e, parsed. split; [by constructor|done].
      * split; [done|]. exists editor, parsed'. split; [by constructor|done].
    + intros (Hex & editor & parsed' & He & Hl & Hp).
      apply elem_of_cons in He as [->|He].
      * left. rewrite Hparsed in Hl. by injection Hl as ->.
      * right. split; [done|]. by exists editor, parsed'.
Qed.

(** The aggregate is returned whenever every editor's list is. *)
Lemma get_projects_of_ok (h : Host) (eds : list JetBrainsIde) :
  (forall editor, editor ∈ eds -> exists parsed, list_projects h editor = Ok parsed) ->
  exists projects, _get_projects_of h eds = Ok projects.
Proof.
  induction eds as [|e eds IH]; intros Hall; simpl; [by eexists|].
  destruct (Hall e) as [parsed ->]; [by constructor|].
  destruct IH as [others ->].
  - intros editor He. apply Hall. by constructor.
  - simpl. by eexists.
Qed.

(** C9. When a query gathers its candidates, a project is among them exactly
    when one of the editors' parsers produced it and its path exists on the
    file system at that moment; and every project that the matcher then
    keeps has an existing path. *)
Theorem get_projects_only_existing (h : Host) (self : Plugin)
    (projects : list Project) :
  _get_projects h self = Ok projects ->
  (forall p, p ∈ projects <->
     path_exists h (path p) = true /\
     exists editor parsed,
       editor ∈ editors self /\ list_projects h editor = Ok parsed /\
       p ∈ parsed)
  /\ (forall query, exists found,
        matches h self query = Ok found /\
        forall p, p ∈ found -> path_exists h (path p) = true).
Proof.
  intros Hall. split.
  - by apply get_projects_of_elem.
  - intros query. unfold matches. rewrite Hall. simpl. eexists. split; [done|].
    intros p [Hp _]%filter_elem.
    by apply (get_projects_of_elem h _ _ Hall) in Hp as [Hex _].
Qed.

Lemma get_projects_only_existing_witness :
  Sample.project_at "/srv/gone" 1600000000
    ∈ [Sample.project_at "/home/u/work/app" 1700000000;
       new_project Sample.pycharm "foo" "/home/u/work/app" 1700000000] <->
  path_exists Sample.host_a (path (Sample.project_at "/srv/gone" 1600000000))
  = true /\
  exists editor parsed,
    editor ∈ editors (new_plugin Sample.host_a) /\
    list_projects Sample.host_a editor = Ok parsed /\
    Sample.project_at "/srv/gone" 1600000000 ∈ parsed.
Proof.
  apply (proj1 (get_projects_only_existing Sample.host_a
                  (new_plugin Sample.host_a)
                  [Sample.project_at "/home/u/work/app" 1700000000;
                   new_project Sample.pycharm "foo" "/home/u/work/app"
                     1700000000]
                  eq_refl)).
Defined.

Lemma new_plugin_match_path (h : Host) :
  readConfig h "match_path" = None -> _match_path (new_plugin h) = false.
Proof. intros Hcfg. simpl. by rewrite Hcfg. Qed.



(** The same query with the flag on and off. *)
Lemma matches_by_path_only :
  matches Sample.host_a (new_plugin Sample.host_a) "work" = Ok []
  /\ matches Sample.host_a (set_match_path (new_plugin Sample.host_a) true) "work"
     = Ok [Sample.project_at "/home/u/work/app" 1700000000;
           new_project Sample.pycharm "foo" "/home/u/work/app" 1700000000].
Proof. split; reflexivity. Qed.

(** ** The order of the matches *)

Lemma insert_recent_perm (p : Project) (l : list Project) :
  insert_recent p l ≡ₚ p :: l.
Proof.
  induction l as [|q l IH]; simpl; [done|].
  destruct (last_opened p <? last_opened q); [|done].
  rewrite IH. apply Permutation_swap.
Qed.

Lemma sort_recent_perm (l : list Project) : sort_recent l ≡ₚ l.
Proof.
  induction l as [|p l IH]; simpl; [done|].
  by rewrite insert_recent_perm, IH.
Qed.

Lemma insert_recent_sorted (p : Project) (l : list Project) :
  Sorted (fun a b => last_opened b <= last_opened a) l ->
  Sorted (fun a b => last_opened b <= last_opened a) (insert_recent p l).
Proof.
  induction 1 as [|q l Hl IH Hhd]; simpl.
  - by repeat constructor.
  - destruct (last_opened p <? last_opened q) eqn:Hlt.
    + apply Z.ltb_lt in Hlt. constructor; [done|].
      destruct l as [|r l]; simpl in *.
      * constructor. lia.
      * destruct (last_opened p <? last_opened r); constructor.
        -- by inversion Hhd.
        -- lia.
    + apply Z.ltb_ge in Hlt. constructor; [by constructor|by constructor].
Qed.

Lemma sort_recent_sorted (l : list Project) :
  Sorted (fun a b => last_opened b <= last_opened a) (sort_recent l).
Proof.
  induction l as [|p l IH]; simpl; [constructor|].
  by apply insert_recent_sorted.
Qed.

Lemma sort_recent_nonempty (l : list Project) : l <> [] -> sort_recent l <> [].
Proof.
  intros Hl Hs. apply Hl. apply Permutation_nil_r.
  rewrite <- Hs. symmetry. apply sort_recent_perm.
Qed.

(** ** The items *)

Lemma make_items_raise (l : list Project) :
  l <> [] ->
  mapM (fun project => _make_item [ObjProject project]) l = Raise TypeError.
Proof. by destruct l. Qed.

Lemma items_raise (h : Host) (self : Plugin) (query : string)
    (found : list Project) :
  matches h self query = Ok found -> found <> [] ->
  items h self query = Raise TypeError.
Proof.
  intros Hm Hne. unfold items. rewrite Hm. simpl.
  by apply make_items_raise, sort_recent_nonempty.
Qed.

Lemma items_empty (h : Host) (self : Plugin) (query : string) :
  matches h self query = Ok [] -> items h self query = Ok [].
Proof. intros Hm. unfold items. by rewrite Hm. Qed.

(** C3. When a query has matches, [items] calls [_make_item] with the
    project alone; the static method takes an editor and a project, so the
    call raises [TypeError] and no entry is built.  Called with the editor
    and the project, [_make_item] builds the entry of the claim. *)
Theorem items_raise_on_matches (h : Host) (self : Plugin) (query : string)
    (found : list Project) :
  matches h self query = Ok found ->
  found <> [] ->
  items h self query = Raise TypeError
  /\ (forall p, p ∈ found ->
        _make_item [ObjProject p] = Raise TypeError
        /\ _make_item [ObjIde (ide p); ObjProject p]
           = Ok {| id := str_opt (binary (ide p)) +:+ "-" +:+ path p +:+ "-"
                         +:+ pretty (last_opened p);
                   text := name p;
                   subtext := path p;
                   input_action_text := name p;
                   icon_factory := icon (ide p);
                   actions :=
                     [{| action_id := "Open";
                         action_text := "Open in " +:+ ide_name (ide p);
                         runDetachedProcess :=
                           [binary (ide p); Some (path p)] |}] |}).
Proof.
  intros Hm Hne. split; [by apply (items_raise h self query found)|].
  intros p _. split; reflexivity.
Qed.

Lemma items_raise_on_matches_witness :
  items Sample.host_a (new_plugin Sample.host_a) "app" = Raise TypeError.
Proof.
  apply (items_raise_on_matches Sample.host_a (new_plugin Sample.host_a) "app"
           [Sample.project_at "/home/u/work/app" 1700000000]).
  - reflexivity.
  - discriminate.
Defined.

(** C7. Three projects opened at 100, 300 and 200, all matching the query:
    the sort puts them in the order 300, 200, 100, and [items] then raises
    [TypeError] on the first of them instead of returning them. *)
Theorem items_three_projects :
  let plugin := new_plugin Sample.host_three in
  let found := [Sample.project_at "/srv/p1" 100; Sample.project_at "/srv/p2" 300;
                Sample.project_at "/srv/p3" 200] in
  matches Sample.host_three plugin "p" = Ok found
  /\ sort_recent found
     = [Sample.project_at "/srv/p2" 300; Sample.project_at "/srv/p3" 200;
        Sample.project_at "/srv/p1" 100]
  /\ items Sample.host_three plugin "p" = Raise TypeError.
Proof. repeat split; reflexivity. Qed.

(** * Further properties *)

(** ** What the parser can raise *)

Lemma unsigned_raise (s : string) (e : exn) :
  Int.unsigned s = Raise e -> e = ValueError.
Proof.
  unfold Int.unsigned. repeat case_match; congruence.
Qed.

Lemma of_string_cases (s : string) :
  exists s', Int.of_string s = Int.unsigned s' \/
             Int.of_string s = (v ← Int.unsigned s'; Ok (- v)).
Proof.
  unfold Int.of_string. destruct (Int.lstrip s) as [|c r]; [by eauto|].
  destruct c as [[] [] [] [] [] [] [] []]; eauto.
Qed.

Lemma of_string_raise (s : string) (e : exn) :
  Int.of_string s = Raise e -> e = ValueError.
Proof.
  destruct (of_string_cases s) as [s' [-> | ->]].
  - apply unsigned_raise.
  - destruct (Int.unsigned s') as [v|x] eqn:Hu; simpl; [done|].
    intros [= <-]. by apply unsigned_raise in Hu.
Qed.

Lemma of_value_raise (opened : option string) (e : exn) :
  Int.of_value opened = Raise e ->
  (e = TypeError /\ opened = None) \/
  (e = ValueError /\ exists v, opened = Some v /\ Int.of_string v = Raise ValueError).
Proof.
  destruct opened as [v|]; simpl.
  - intros Hv. pose proof (of_string_raise _ _ Hv) as ->. right. eauto.
  - intros [= <-]. by left.
Qed.

Section ParserFailures.

Context (h : Host) (self : JetBrainsIde).

(** With a timestamp that [int] refuses, or none, the inner loop goes through
    only when no module file has a name of its own. *)
Lemma module_loop_bad (pp pn : string) (opened : option string) (x : exn)
    (files : list string) (acc : list Project) :
  Int.of_value opened = Raise x ->
  for_each (module_step self pp pn opened) files acc
  = if forallb (fun f => String.eqb (module_name f) pn) files
    then Ok acc else Raise x.
Proof.
  intros Hx. induction files as [|f files IH]; simpl; [done|].
  assert (module_step self pp pn opened acc f
          = if String.eqb (module_name f) pn then Ok acc else Raise x) as ->.
  { unfold module_step. destruct (String.eqb (module_name f) pn); simpl; [done|].
    by rewrite Hx. }
  destruct (String.eqb (module_name f) pn); simpl; [apply IH|done].
Qed.

Lemma entry_step_bad (acc : list Project) (entry : Element) (key : string)
    (x : exn) :
  attrib entry !! "key" = Some key ->
  Int.of_value (entry_last_opened entry) = Raise x ->
  let project_path := Str.replace "$USER_HOME$" (home h) key in
  let project_name := Path.name project_path in
  let files := glob h (project_path +:+ "/.idea") "*.iml" in
  entry_step h self acc entry
  = if Str.truthy project_path && truthy_opt (entry_last_opened entry)
    then Raise x
    else if forallb (fun f => String.eqb (module_name f) project_name) files
         then Ok acc else Raise x.
Proof.
  intros Hkey Hx. simpl. unfold entry_step, getitem. rewrite Hkey. simpl.
  destruct (Str.truthy _ && truthy_opt _); simpl.
  - by rewrite Hx.
  - by apply module_loop_bad.
Qed.

Lemma forallb_false_elem {A : Type} (f : A -> bool) (l : list A) :
  forallb f l = false -> exists a, a ∈ l /\ f a = false.
Proof.
  induction l as [|a l IH]; simpl; [done|].
  destruct (f a) eqn:Ha; simpl.
  - intros (b & Hb & Hfb)%IH. exists b. split; [by constructor|done].
  - intros _. exists a. split; [by constructor|done].
Qed.

Lemma entry_step_raise (acc : list Project) (entry : Element) (e : exn) :
  entry_step h self acc entry = Raise e -> entry_failure h entry e.
Proof.
  destruct (attrib entry !! "key") as [key|] eqn:Hkey.
  - destruct (Int.of_value (entry_last_opened entry)) as [ts|x] eqn:Hx.
    + destruct (entry_last_opened entry) as [v|] eqn:Hopened; [|done].
      by rewrite (entry_step_ok h self acc entry key v ts).
    + rewrite (entry_step_bad acc entry key x Hkey Hx).
      apply of_value_raise in Hx as [[-> Hnone]|(-> & v & Hv & Hbad)].
      * rewrite Hnone, andb_false_r.
        destruct (forallb _ _) eqn:Hall; [done|]. intros [= <-].
        apply forallb_false_elem in Hall as (file & Hfile & Hne).
        right. left. exists key, file. repeat split; try done.
        by apply String.eqb_neq.
      * intros Hraise. assert (e = ValueError) as ->.
        { destruct (_ && _); [congruence|].
          destruct (forallb _ _); congruence. }
        right. right. by exists v.
  - unfold entry_step, getitem. rewrite Hkey. simpl. intros [= <-]. by left.
Qed.

Lemma parse_entries_raise (entries : list Element) (e : exn) :
  _parse_project_entries h self entries = Raise e ->
  exists entry, entry ∈ entries /\ entry_failure h entry e.
Proof.
  induction entries as [|entry entries IH]; [done|].
  rewrite parse_cons.
  destruct (entry_step h self [] entry) as [l|x] eqn:Hstep; simpl.
  - destruct (_parse_project_entries h self entries) as [l'|x]; simpl; [done|].
    intros [= ->]. destruct IH as (entry' & Hin & Hfail); [done|].
    exists entry'. split; [by constructor|done].
  - intros [= ->]. exists entry. split; [by constructor|].
    by apply (entry_step_raise []).
Qed.

End ParserFailures.

(** X1. When [_parse_project_entries] raises, one of the entries is at fault
    in one of three ways: it has no [key] attribute ([KeyError]); it has no
    timestamp while its project has a module file with a name of its own
    ([TypeError]); or its timestamp value is not an integer ([ValueError]). *)
Theorem parse_entries_failures (h : Host) (self : JetBrainsIde)
    (entries : list Element) (e : exn) :
  _parse_project_entries h self entries = Raise e ->
  exists entry, entry ∈ entries /\
    ((e = KeyError /\ attrib entry !! "key" = None)
     \/ (exists key file,
           attrib entry !! "key" = Some key /\
           e = TypeError /\ entry_last_opened entry = None /\
           file ∈ glob h (Str.replace "$USER_HOME$" (home h) key +:+ "/.idea")
                    "*.iml" /\
           module_name file
           <> Path.name (Str.replace "$USER_HOME$" (home h) key))
     \/ (exists v,
           e = ValueError /\ entry_last_opened entry = Some v /\
           Int.of_string v = Raise ValueError)).
Proof. intros Hraise. by apply (parse_entries_raise h self). Qed.

Lemma parse_entries_failures_witness :
  exists entry,
    entry ∈ [Sample.stamped "/srv/old" "1500000000";
             Sample.stamped "/srv/p1" "12x"] /\
    ((ValueError = KeyError /\ attrib entry !! "key" = None)
     \/ (exists key file,
           attrib entry !! "key" = Some key /\
           ValueError = TypeError /\ entry_last_opened entry = None /\
           file ∈ glob Sample.host_a
                    (Str.replace "$USER_HOME$" (home Sample.host_a) key
                     +:+ "/.idea") "*.iml" /\
           module_name file
           <> Path.name (Str.replace "$USER_HOME$" (home Sample.host_a) key))
     \/ (exists v,
           ValueError = ValueError /\ entry_last_opened entry = Some v /\
           Int.of_string v = Raise ValueError)).
Proof.
  apply (parse_entries_failures Sample.host_a Sample.pycharm
           [Sample.stamped "/srv/old" "1500000000";
            Sample.stamped "/srv/p1" "12x"] ValueError).
  reflexivity.
Defined.

(** X2. What [list_projects] raises is either what the host raised when the
    recent-projects file was read, other than a parse error and a
    file-not-found error, or a [TypeError] or [ValueError] due to an entry of
    that file: one without timestamp, or one whose timestamp is not an
    integer.  The [KeyError] of a missing key and the [IndexError] of the
    index [-1] do not occur. *)
Theorem list_projects_failures (h : Host) (self : JetBrainsIde) (e : exn) :
  list_projects h self = Raise e ->
  (exists dir,
     parse h (recent_projects_file self dir) = Raise e /\
     e <> ParseError /\ e <> FileNotFoundError)
  \/ (exists dir root entry,
        parse h (recent_projects_file self dir) = Ok root /\
        entry ∈ ElementPath.findall_entries (recent_manager (ide_class self)) root /\
        ((e = TypeError /\ entry_last_opened entry = None)
         \/ (e = ValueError /\ exists v,
               entry_last_opened entry = Some v /\
               Int.of_string v = Raise ValueError))).
Proof.
  intros Hraise.
  destruct (list_projects_cases h self) as [Hnil|(dirs & Hdirs & Hread)];
    [congruence|].
  destruct (newest_exists dirs Hdirs) as (newest & Hnewest & _).
  rewrite Hread, (read_newest_eq h self dirs newest Hnewest) in Hraise.
  unfold try_except in Hraise.
  destruct (_get_recent_projects_entries h self newest
              ≫= _parse_project_entries h self) as [ps|x] eqn:Hinner; [done|].
  destruct (caught x) eqn:Hcaught; [done|]. injection Hraise as ->.
  unfold _get_recent_projects_entries in Hinner.
  destruct (parse h (recent_projects_file self newest)) as [root|x] eqn:Hparse;
    simpl in Hinner.
  - right. apply parse_entries_raise in Hinner as (entry & Hin & Hfail).
    exists newest, root, entry. split; [done|]. split; [done|].
    destruct Hfail as [[_ Hnokey]|[(key & file & _ & -> & Hnone & _)
                                  |(v & -> & Hv & Hbad)]].
    + apply findall_entries_key in Hin as [key Hkey]. congruence.
    + by left.
    + right. split; [done|]. by exists v.
  - left. injection Hinner as ->. exists newest. split; [done|].
    split; intros ->; done.
Qed.

Lemma list_projects_failures_witness :
  (exists dir,
     parse Sample.host_unstamped (recent_projects_file Sample.pycharm dir)
     = Raise TypeError /\
     TypeError <> ParseError /\ TypeError <> FileNotFoundError)
  \/ (exists dir root entry,
        parse Sample.host_unstamped (recent_projects_file Sample.pycharm dir)
        = Ok root /\
        entry ∈ ElementPath.findall_entries
                  (recent_manager (ide_class Sample.pycharm)) root /\
        ((TypeError = TypeError /\ entry_last_opened entry = None)
         \/ (TypeError = ValueError /\ exists v,
               entry_last_opened entry = Some v /\
               Int.of_string v = Raise ValueError))).
Proof.
  apply (list_projects_failures Sample.host_unstamped Sample.pycharm TypeError).
  reflexivity.
Defined.

(** ** Where the projects come from *)

Section Provenance.

Context (h : Host) (self : JetBrainsIde).

Lemma entry_step_sound (entry : Element) (l : list Project) :
  entry_step h self [] entry = Ok l ->
  l = [] \/
  exists key v ts,
    attrib entry !! "key" = Some key /\
    entry_last_opened entry = Some v /\
    Int.of_string v = Ok ts /\
    forall p, p ∈ l ->
      ide p = self /\ path p = Str.replace "$USER_HOME$" (home h) key /\
      last_opened p = ts /\
      ((name p = Path.name (path p) /\ path p <> "")
       \/ (exists file,
             file ∈ glob h (path p +:+ "/.idea") "*.iml" /\
             name p = module_name file /\ name p <> Path.name (path p))).
Proof.
  intros Hstep.
  destruct (attrib entry !! "key") as [key|] eqn:Hkey.
  2: { unfold entry_step, getitem in Hstep. by rewrite Hkey in Hstep. }
  destruct (Int.of_value (entry_last_opened entry)) as [ts|x] eqn:Hx.
  - destruct (entry_last_opened entry) as [v|] eqn:Hopened; [|done].
    simpl in Hx. right. exists key, v, ts.
    split; [done|]. split; [done|]. split; [done|].
    rewrite (entry_step_ok h self [] entry key v ts) in Hstep by done.
    injection Hstep as <-. intros p Hp. simpl in Hp.
    apply elem_of_app in Hp as [Hdir|Hmod].
    + destruct (Str.truthy _) eqn:Htruthy; [|by apply elem_of_nil in Hdir].
      apply list_elem_of_singleton in Hdir as ->. simpl.
      split; [done|]. split; [done|]. split; [done|].
      left. split; [done|]. intros Hempty. by rewrite Hempty in Htruthy.
    + apply list_elem_of_In, in_map_iff in Hmod as (file & <- & Hfile).
      apply List.filter_In in Hfile as [Hfile Hne].
      apply list_elem_of_In in Hfile.
      apply negb_true_iff, String.eqb_neq in Hne. simpl.
      split; [done|]. split; [done|]. split; [done|].
      right. by exists file.
  - left. rewrite (entry_step_bad h self [] entry key x Hkey Hx) in Hstep.
    destruct (_ && _); [done|]. destruct (forallb _ _); [|done].
    by injection Hstep as <-.
Qed.

Lemma parse_entries_sound (entries : list Element) (projects : list Project) :
  _parse_project_entries h self entries = Ok projects ->
  forall p, p ∈ projects ->
    exists entry key v,
      entry ∈ entries /\
      attrib entry !! "key" = Some key /\
      entry_last_opened entry = Some v /\
      Int.of_string v = Ok (last_opened p) /\
      ide p = self /\ path p = Str.replace "$USER_HOME$" (home h) key /\
      ((name p = Path.name (path p) /\ path p <> "")
       \/ (exists file,
             file ∈ glob h (path p +:+ "/.idea") "*.iml" /\
             name p = module_name file /\ name p <> Path.name (path p))).
Proof.
  revert projects. induction entries as [|entry entries IH]; intros projects.
  - intros [= <-] p Hp. by apply elem_of_nil in Hp.
  - rewrite parse_cons. intros Hall.
    apply bind_Ok in Hall as (l & Hstep & Hall).
    apply bind_Ok in Hall as (l' & Hrest & [= <-]).
    intros p Hp. apply elem_of_app in Hp as [Hp|Hp].
    + apply entry_step_sound in Hstep as [->|(key & v & ts & Hkey & Hv & Hts & Hl)].
      * by apply elem_of_nil in Hp.
      * destruct (Hl p Hp) as (Hide & Hpath & <- & Hname).
        exists entry, key, v. split; [by constructor|done].
    + destruct (IH l' Hrest p Hp) as (entry' & key & v & Hin & Hrest').
      exists entry', key, v. split; [by constructor|done].
Qed.

End Provenance.

Lemma list_projects_sound (h : Host) (self : JetBrainsIde)
    (projects : list Project) :
  list_projects h self = Ok projects ->
  forall p, p ∈ projects ->
    exists dir root entry key v,
      parse h (recent_projects_file self dir) = Ok root /\
      entry ∈ ElementPath.findall_entries (recent_manager (ide_class self)) root /\
      attrib entry !! "key" = Some key /\
      entry_last_opened entry = Some v /\
      Int.of_string v = Ok (last_opened p) /\
      ide p = self /\ path p = Str.replace "$USER_HOME$" (home h) key /\
      ((name p = Path.name (path p) /\ path p <> "")
       \/ (exists file,
             file ∈ glob h (path p +:+ "/.idea") "*.iml" /\
             name p = module_name file /\ name p <> Path.name (path p))).
Proof.
  intros Hok p Hp.
  destruct (list_projects_cases h self) as [Hnil|(dirs & Hdirs & Hread)].
  { rewrite Hnil in Hok. injection Hok as <-. by apply elem_of_nil in Hp. }
  destruct (newest_exists dirs Hdirs) as (newest & Hnewest & _).
  rewrite Hread, (read_newest_eq h self dirs newest Hnewest) in Hok.
  unfold try_except in Hok.
  destruct (_get_recent_projects_entries h self newest
              ≫= _parse_project_entries h self) as [ps|x] eqn:Hinner.
  - injection Hok as ->. unfold _get_recent_projects_entries in Hinner.
    destruct (parse h (recent_projects_file self newest)) as [root|x] eqn:Hparse;
      [|done].
    simpl in Hinner.
    destruct (parse_entries_sound h self _ _ Hinner p Hp)
      as (entry & key & v & Hrest).
    by exists newest, root, entry, key, v.
  - destruct (caught x); [|done]. injection Hok as <-.
    by apply elem_of_nil in Hp.
Qed.

(** X3. Every project that [list_projects] returns belongs to the variant it
    was asked for and stands for an entry of the recent-projects file that
    was read: its path is the entry's key with the home token replaced, its
    timestamp is the integer of the entry's timestamp value, and its name is
    the last segment of its path or the name of a module file of its
    [.idea] directory that differs from that segment. *)
Theorem list_projects_provenance (h : Host) (self : JetBrainsIde)
    (projects : list Project) (p : Project) :
  list_projects h self = Ok projects ->
  p ∈ projects ->
  exists dir root entry key v,
    parse h (recent_projects_file self dir) = Ok root /\
    entry ∈ ElementPath.findall_entries (recent_manager (ide_class self)) root /\
    attrib entry !! "key" = Some key /\
    entry_last_opened entry = Some v /\
    Int.of_string v = Ok (last_opened p) /\
    ide p = self /\ path p = Str.replace "$USER_HOME$" (home h) key /\
    ((name p = Path.name (path p) /\ path p <> "")
     \/ (exists file,
           file ∈ glob h (path p +:+ "/.idea") "*.iml" /\
           name p = module_name file /\ name p <> Path.name (path p))).
Proof. intros Hok Hp. by apply (list_projects_sound h self projects). Qed.

Lemma list_projects_provenance_witness :
  exists dir root entry key v,
    parse Sample.host_a (recent_projects_file Sample.pycharm dir) = Ok root /\
    entry ∈ ElementPath.findall_entries
              (recent_manager (ide_class Sample.pycharm)) root /\
    attrib entry !! "key" = Some key /\
    entry_last_opened entry = Some v /\
    Int.of_string v
    = Ok (last_opened
            (new_project Sample.pycharm "foo" "/home/u/work/app" 1700000000)) /\
    ide (new_project Sample.pycharm "foo" "/home/u/work/app" 1700000000)
    = Sample.pycharm /\
    path (new_project Sample.pycharm "foo" "/home/u/work/app" 1700000000)
    = Str.replace "$USER_HOME$" (home Sample.host_a) key /\
    ((name (new_project Sample.pycharm "foo" "/home/u/work/app" 1700000000)
      = Path.name
          (path (new_project Sample.pycharm "foo" "/home/u/work/app" 1700000000))
      /\ path (new_project Sample.pycharm "foo" "/home/u/work/app" 1700000000)
         <> "")
     \/ (exists file,
           file ∈ glob Sample.host_a
                    (path (new_project Sample.pycharm "foo" "/home/u/work/app"
                             1700000000) +:+ "/.idea") "*.iml" /\
           name (new_project Sample.pycharm "foo" "/home/u/work/app" 1700000000)
           = module_name file /\
           name (new_project Sample.pycharm "foo" "/home/u/work/app" 1700000000)
           <> Path.name
                (path (new_project Sample.pycharm "foo" "/home/u/work/app"
                         1700000000)))).
Proof.
  apply (list_projects_provenance Sample.host_a Sample.pycharm
           [Sample.project_at "/home/u/work/app" 1700000000;
            new_project Sample.pycharm "foo" "/home/u/work/app" 1700000000;
            Sample.project_at "/srv/gone" 1600000000]).
  - reflexivity.
  - apply elem_of_cons. right. apply elem_of_cons. by left.
Defined.

(** X4. Every candidate that a freshly built plugin gathers for a query
    belongs to a variant of the plugin's registry, so its executable is
    resolved, and its path exists. *)
Theorem candidates_have_executable (h : Host) (projects : list Project)
    (p : Project) :
  _get_projects h (new_plugin h) = Ok projects ->
  p ∈ projects ->
  ide p ∈ editors (new_plugin h)
  /\ (exists b, binary (ide p) = Some b /\ found h b = true)
  /\ path_exists h (path p) = true.
Proof.
  intros Hall Hp.
  apply (get_projects_of_elem h _ _ Hall) in Hp
    as (Hex & editor & parsed & He & Hparsed & Hp).
  destruct (list_projects_sound h editor parsed Hparsed p Hp)
    as (dir & root & entry & key & v & _ & _ & _ & _ & _ & Hide & _).
  rewrite Hide. split; [done|]. split; [|done].
  apply get_editors_elem in He as (row & _ & -> & [b Hb]).
  exists b. split; [done|]. rewrite construct_binary in Hb.
  by apply find_binary_Some in Hb as (_ & _ & _ & _ & Hf).
Qed.

Lemma candidates_have_executable_witness :
  ide (new_project Sample.pycharm "foo" "/home/u/work/app" 1700000000)
    ∈ editors (new_plugin Sample.host_a)
  /\ (exists b,
        binary (ide (new_project Sample.pycharm "foo" "/home/u/work/app"
                       1700000000)) = Some b /\
        found Sample.host_a b = true)
  /\ path_exists Sample.host_a
       (path (new_project Sample.pycharm "foo" "/home/u/work/app" 1700000000))
     = true.
Proof.
  apply (candidates_have_executable Sample.host_a
           [Sample.project_at "/home/u/work/app" 1700000000;
            new_project Sample.pycharm "foo" "/home/u/work/app" 1700000000]).
  - reflexivity.
  - apply elem_of_cons. right. apply elem_of_cons. by left.
Defined.

(** X5. An entry without a [key] attribute makes [_parse_project_entries]
    raise [KeyError], whatever the entries before it produced and whatever
    follows it. *)
Theorem parse_entries_missing_key (h : Host) (self : JetBrainsIde)
    (before after : list Element) (entry : Element) (projects : list Project) :
  _parse_project_entries h self before = Ok projects ->
  attrib entry !! "key" = None ->
  _parse_project_entries h self (before ++ entry :: after) = Raise KeyError.
Proof.
  intros Hbefore Hkey. rewrite parse_app, Hbefore. simpl.
  rewrite parse_cons. unfold entry_step, getitem. by rewrite Hkey.
Qed.

Lemma parse_entries_missing_key_witness :
  _parse_project_entries Sample.host_a Sample.pycharm
    ([Sample.stamped "/srv/old" "1500000000"]
     ++ Elem "entry" ∅ [] :: [Sample.stamped "/srv/gone" "1600000000"])
  = Raise KeyError.
Proof.
  apply (parse_entries_missing_key Sample.host_a Sample.pycharm
           [Sample.stamped "/srv/old" "1500000000"]
           [Sample.stamped "/srv/gone" "1600000000"]
           (Elem "entry" ∅ [])
           [Sample.project_at "/srv/old" 1500000000]);
    reflexivity.
Defined.

(** ** Keys, paths and names *)

Lemma replace_from_cons (old new : string) (c : ascii) (s : string) :
  Str.replace_from old new 0 (String c s)
  = if String.prefix old (String c s)
    then new +:+ Str.replace_from old new (String.length old - 1) s
    else String c (Str.replace_from old new 0 s).
Proof. reflexivity. Qed.

Lemma contains_cons (sub : string) (c : ascii) (s : string) :
  Str.contains sub (String c s)
  = String.prefix sub (String c s) || Str.contains sub s.
Proof. reflexivity. Qed.

(** A string that does not hold [old] is left as it is. *)
Lemma replace_absent (old new s : string) :
  old <> "" -> Str.contains old s = false -> Str.replace old new s = s.
Proof.
  intros Hold. unfold Str.replace. destruct old as [|a old]; [done|].
  induction s as [|c s IH]; [done|].
  rewrite contains_cons, replace_from_cons.
  intros [-> Hs]%orb_false_iff. f_equal. by apply IH.
Qed.

Lemma split_plain (n : string) :
  Str.contains "/" n = false -> Str.split "/" n = [n].
Proof.
  induction n as [|c n IH]; [done|].
  rewrite contains_cons, prefix_cons, prefix_nil_l, andb_true_r.
  intros [Hc Hn]%orb_false_iff. simpl.
  rewrite Ascii.eqb_sym, Hc, (IH Hn). done.
Qed.

(** The name of a path is its last segment. *)
Lemma name_last_segment (dir n : string) :
  n <> "" -> n <> "." -> Str.contains "/" n = false ->
  Path.name (dir +:+ "/" +:+ n) = n.
Proof.
  intros Hne Hdot Hplain. unfold Path.name.
  change (dir +:+ "/" +:+ n) with (dir +:+ String "/" n).
  rewrite parts_app. unfold Path.parts at 2. rewrite (split_plain n Hplain).
  assert (Path.is_part n = true) as Hpart.
  { unfold Path.is_part. apply andb_true_iff. split.
    - by destruct n.
    - by apply negb_true_iff, String.eqb_neq. }
  rewrite filter_cons_True by done. rewrite filter_nil.
  by rewrite last_app_cons.
Qed.

(** X6. A key that does not hold the token [$USER_HOME$] is the project's
    path as it stands: for an entry with such a non-empty key and an integer
    timestamp the parser returns the project of that path, named after the
    path, first, and the projects of the module files after it have the same
    path, whatever the home directory is. *)
Theorem key_without_home_token (h : Host) (self : JetBrainsIde)
    (entry : Element) (key v : string) (ts : Z) :
  attrib entry !! "key" = Some key ->
  key <> "" ->
  Str.contains "$USER_HOME$" key = false ->
  entry_last_opened entry = Some v ->
  Int.of_string v = Ok ts ->
  exists modules,
    _parse_project_entries h self [entry]
    = Ok (new_project self (Path.name key) key ts :: modules)
    /\ forall p, p ∈ modules -> path p = key /\ last_opened p = ts.
Proof.
  intros Hkey Hne Hno Hopened Hv.
  pose proof (entry_step_ok h self [] entry key v ts Hkey Hopened Hv) as Hstep.
  cbv zeta in Hstep. rewrite (replace_absent _ _ key) in Hstep by done.
  assert (Str.truthy key = true) as Htruthy by by destruct key.
  rewrite Htruthy in Hstep. rewrite parse_singleton, Hstep. simpl.
  eexists. split; [done|].
  intros p Hp. by apply list_elem_of_In, in_map_iff in Hp as (file & <- & _).
Qed.

Lemma key_without_home_token_witness :
  exists modules,
    _parse_project_entries Sample.host_a Sample.pycharm
      [Sample.stamped "/home/u/work/app" "1700000000"]
    = Ok (new_project Sample.pycharm (Path.name "/home/u/work/app")
            "/home/u/work/app" 1700000000 :: modules)
    /\ forall p, p ∈ modules ->
         path p = "/home/u/work/app" /\ last_opened p = 1700000000.
Proof.
  apply (key_without_home_token Sample.host_a Sample.pycharm
           (Sample.stamped "/home/u/work/app" "1700000000")
           "/home/u/work/app" "1700000000" 1700000000);
    done.
Defined.

(** X7. The project of an entry is named after the last segment of its key:
    for a key [<dir>/<n>] without the home token, where [n] is a plain
    segment, and an integer timestamp, the first project the parser returns
    is named [n]. *)
Theorem project_named_after_last_segment (h : Host) (self : JetBrainsIde)
    (entry : Element) (dir n v : string) (ts : Z) :
  attrib entry !! "key" = Some (dir +:+ "/" +:+ n) ->
  n <> "" -> n <> "." -> Str.contains "/" n = false ->
  Str.contains "$USER_HOME$" (dir +:+ "/" +:+ n) = false ->
  entry_last_opened entry = Some v ->
  Int.of_string v = Ok ts ->
  exists modules,
    _parse_project_entries h self [entry]
    = Ok ({| name := n; path := dir +:+ "/" +:+ n; last_opened := ts;
             ide := self |} :: modules).
Proof.
  intros Hkey Hne Hdot Hplain Hno Hopened Hv.
  pose proof (entry_step_ok h self [] entry _ v ts Hkey Hopened Hv) as Hstep.
  cbv zeta in Hstep. rewrite (replace_absent _ _ _) in Hstep by done.
  rewrite (name_last_segment dir n) in Hstep by done.
  change (dir +:+ "/" +:+ n) with (dir +:+ String "/" n) in Hstep.
  rewrite truthy_app in Hstep.
  rewrite parse_singleton, Hstep. simpl. by eexists.
Qed.

Lemma project_named_after_last_segment_witness :
  exists modules,
    _parse_project_entries Sample.host_a Sample.pycharm
      [Sample.stamped "/srv/old" "1500000000"]
    = Ok ({| name := "old"; path := "/srv" +:+ "/" +:+ "old";
             last_opened := 1500000000; ide := Sample.pycharm |} :: modules).
Proof.
  apply (project_named_after_last_segment Sample.host_a Sample.pycharm
           (Sample.stamped "/srv/old" "1500000000") "/srv" "old"
           "1500000000" 1500000000);
    done.
Defined.

(** ** The sort of the matches *)

Lemma insert_recent_stable (k : Z) (p : Project) (l : list Project) :
  List.filter (fun q => last_opened q =? k) (insert_recent p l)
  = List.filter (fun q => last_opened q =? k) (p :: l).
Proof.
  induction l as [|q l IH]; [done|].
  simpl insert_recent. destruct (last_opened p <? last_opened q) eqn:Hlt; [|done].
  apply Z.ltb_lt in Hlt.
  change (List.filter (fun q0 => last_opened q0 =? k) (q :: insert_recent p l))
    with (if last_opened q =? k
          then q :: List.filter (fun q0 => last_opened q0 =? k) (insert_recent p l)
          else List.filter (fun q0 => last_opened q0 =? k) (insert_recent p l)).
  rewrite IH. simpl.
  destruct (last_opened q =? k) eqn:Hq; destruct (last_opened p =? k) eqn:Hp;
    try done.
  apply Z.eqb_eq in Hq, Hp. lia.
Qed.

(** X8. The sort of the matches puts them in the order of their timestamps,
    latest first, keeps every match exactly once, and keeps matches with the
    same timestamp in the order they had. *)
Theorem sort_recent_stable_descending (l : list Project) :
  Sorted (fun a b => last_opened b <= last_opened a) (sort_recent l)
  /\ sort_recent l ≡ₚ l
  /\ forall k,
       List.filter (fun p => last_opened p =? k) (sort_recent l)
       = List.filter (fun p => last_opened p =? k) l.
Proof.
  split; [apply sort_recent_sorted|]. split; [apply sort_recent_perm|].
  intros k. induction l as [|p l IH]; [done|].
  simpl sort_recent. rewrite insert_recent_stable. simpl. by rewrite IH.
Qed.

(** ** The outcome of a query *)

(** X9. [items] returns a batch only when nothing matched, and the batch is
    then empty; with at least one match it raises [TypeError]; and what the
    gathering of the candidates raises, it raises too. *)
Theorem items_outcome (h : Host) (self : Plugin) (query : string) :
  items h self query
  = match matches h self query with
    | Ok [] => Ok []
    | Ok (_ :: _) => Raise TypeError
    | Raise e => Raise e
    end.
Proof.
  destruct (matches h self query) as [[|p found]|e] eqn:Hm.
  - by apply items_empty.
  - by apply (items_raise h self query (p :: found)).
  - unfold items. by rewrite Hm.
Qed.

(** X10. A variant whose [list_projects] raises takes the whole query down:
    when the variants before it in the registry return their lists, the
    gathering of the candidates, the matching and [items] all raise the same
    exception, whatever the other variants hold and whatever the query is. *)
Theorem failing_variant_fails_query (h : Host) (self : Plugin)
    (before after : list JetBrainsIde) (editor : JetBrainsIde) (e : exn)
    (query : string) :
  editors self = before ++ editor :: after ->
  (forall other, other ∈ before -> exists l, list_projects h other = Ok l) ->
  list_projects h editor = Raise e ->
  _get_projects h self = Raise e
  /\ matches h self query = Raise e
  /\ items h self query = Raise e.
Proof.
  intros Heds Hbefore Hraise.
  assert (_get_projects h self = Raise e) as Hall.
  { unfold _get_projects. rewrite Heds, get_projects_of_app.
    destruct (get_projects_of_ok h before Hbefore) as [ps ->].
    simpl. by rewrite Hraise. }
  assert (matches h self query = Raise e) as Hm.
  { unfold matches. by rewrite Hall. }
  split; [done|]. split; [done|]. unfold items. by rewrite Hm.
Qed.

Lemma failing_variant_fails_query_witness :
  _get_projects Sample.host_unstamped (new_plugin Sample.host_unstamped)
  = Raise TypeError
  /\ matches Sample.host_unstamped (new_plugin Sample.host_unstamped) "old"
     = Raise TypeError
  /\ items Sample.host_unstamped (new_plugin Sample.host_unstamped) "old"
     = Raise TypeError.
Proof.
  apply (failing_variant_fails_query Sample.host_unstamped
           (new_plugin Sample.host_unstamped)
           [Sample.clion] [Sample.rider] Sample.pycharm TypeError "old").
  - reflexivity.
  - intros other Hother. apply list_elem_of_singleton in Hother as ->.
    exists []. reflexivity.
  - reflexivity.
Defined.

(** ** The items of one entry *)



(** ** The order and the executables of the registry *)

Lemma filter_sublist_of {A : Type} (f : A -> bool) (l : list A) :
  List.filter f l `sublist_of` l.
Proof.
  induction l as [|a l IH]; simpl; [constructor|].
  destruct (f a); by constructor.
Qed.

Lemma map_sublist_of {A B : Type} (f : A -> B) (l1 l2 : list A) :
  l1 `sublist_of` l2 -> map f l1 `sublist_of` map f l2.
Proof. induction 1; simpl; by constructor. Qed.

Lemma map_construct_names (h : Host) (icons_dir : string)
    (rows : list (IdeClass * string * string * list string * list string)) :
  map ide_name (map (construct h icons_dir) rows) = map row_name rows.
Proof.
  induction rows as [|row rows IH]; simpl; [done|].
  by rewrite construct_name, IH.
Qed.

(** X12. The registry lists the variants it keeps in the order of the table,
    and no two of them have the same name. *)
Theorem get_editors_order (h : Host) (icons_dir : string) :
  map ide_name (get_editors h icons_dir) `sublist_of` map row_name editor_table
  /\ NoDup (map ide_name (get_editors h icons_dir)).
Proof.
  assert (map ide_name (get_editors h icons_dir)
            `sublist_of` map row_name editor_table) as Hsub.
  { rewrite <- (map_construct_names h icons_dir).
    apply map_sublist_of, filter_sublist_of. }
  split; [done|]. eapply sublist_NoDup; [apply table_names_NoDup|done].
Qed.

Lemma table_binaries_disjoint :
  Forall (fun row1 =>
    Forall (fun row2 =>
      row1 = row2 \/
      Forall (fun b => b ∉ row_binaries row2) (row_binaries row1))
    editor_table) editor_table.
Proof. apply (bool_decide_unpack _). vm_compute. done. Qed.

(** X13. No executable serves two variants: two variants of the registry
    with the same executable are the same variant. *)
Theorem get_editors_distinct_binaries (h : Host) (icons_dir : string)
    (e1 e2 : JetBrainsIde) :
  e1 ∈ get_editors h icons_dir ->
  e2 ∈ get_editors h icons_dir ->
  binary e1 = binary e2 ->
  e1 = e2.
Proof.
  intros (row1 & Hrow1 & -> & [b Hb1])%get_editors_elem
         (row2 & Hrow2 & -> & _)%get_editors_elem Hsame.
  assert (binary (construct h icons_dir row2) = Some b) as Hb2 by congruence.
  rewrite construct_binary in Hb1, Hb2.
  apply find_binary_Some in Hb1 as (before1 & after1 & Hbin1 & _).
  apply find_binary_Some in Hb2 as (before2 & after2 & Hbin2 & _).
  pose proof table_binaries_disjoint as Hdis.
  rewrite Forall_forall in Hdis. specialize (Hdis row1 Hrow1).
  rewrite Forall_forall in Hdis. destruct (Hdis row2 Hrow2) as [->|Hno]; [done|].
  rewrite Forall_forall in Hno. exfalso. apply (Hno b).
  - rewrite Hbin1. apply elem_of_app. right. by constructor.
  - rewrite Hbin2. apply elem_of_app. right. by constructor.
Qed.

Lemma get_editors_distinct_binaries_witness : Sample.pycharm = Sample.pycharm.
Proof.
  apply (get_editors_distinct_binaries Sample.host_a
           "/usr/share/albert/jetbrains_projects/icons").
  - apply elem_of_cons. right. apply elem_of_cons. by left.
  - apply elem_of_cons. right. apply elem_of_cons. by left.
  - reflexivity.
Defined.

(** ** The configuration flag *)

(** X14. The flag survives a restart: on a host that returns, for the key
    the setter wrote, the value the setter wrote, a newly built plugin has
    the flag that the setter gave the old one; on a host that has nothing
    under that key the flag is off. *)
Theorem match_path_round_trip (h h' : Host) (self : Plugin) (value : bool) :
  let (updated, written) := match_path_setter self value in
  match_path updated = value
  /\ (readConfig h' (fst written) = Some (snd written) ->
      match_path (new_plugin h') = match_path updated)
  /\ (readConfig h (fst written) = None -> match_path (new_plugin h) = false).
Proof.
  simpl. split; [done|]. split; intros Hcfg; unfold match_path; simpl;
    by rewrite Hcfg.
Qed.

(** ** Which directory is the newest *)

Lemma ascii_compare_refl (c : ascii) : Ascii.compare c c = Eq.
Proof. unfold Ascii.compare. apply N.compare_refl. Qed.

Lemma compare_app (base x y : string) :
  String.compare (base +:+ x) (base +:+ y) = String.compare x y.
Proof.
  induction base as [|c base IH]; [done|].
  rewrite !string_app_cons. simpl. by rewrite ascii_compare_refl.
Qed.

(** X15. The directory that is read is chosen by the order of the names as
    strings: of two matching directories whose names agree up to some point,
    the one that goes on with the smaller character is never read.  With
    [PyCharm2024.2] and [PyCharmCE2023.1] both present, the first is not. *)
Theorem newest_by_string_order (dirs : list string) (base : string)
    (c1 c2 : ascii) (r1 r2 newest : string) :
  base +:+ String c1 r1 ∈ dirs ->
  base +:+ String c2 r2 ∈ dirs ->
  (N_of_ascii c1 < N_of_ascii c2)%N ->
  last_item (sorted dirs) = Ok newest ->
  newest <> base +:+ String c1 r1.
Proof.
  intros _ Hin2 Hlt Hnewest ->.
  unfold last_item in Hnewest.
  destruct (last (sorted dirs)) as [d|] eqn:Hlast; [|done].
  injection Hnewest as ->.
  apply sorted_last_max in Hlast as [_ Hmax].
  specialize (Hmax _ Hin2). unfold String.le, String.leb in Hmax.
  rewrite compare_app in Hmax. simpl in Hmax.
  unfold Ascii.compare in Hmax.
  apply N.compare_gt_iff in Hlt. by rewrite Hlt in Hmax.
Qed.

Lemma newest_by_string_order_witness :
  "/home/u/.config/JetBrains/PyCharmCE2023.1"
  <> "/home/u/.config/JetBrains/PyCharm" +:+ String "2" "024.2".
Proof.
  apply (newest_by_string_order
           ["/home/u/.config/JetBrains/PyCharm2024.2";
            "/home/u/.config/JetBrains/PyCharmCE2023.1"]
           "/home/u/.config/JetBrains/PyCharm" "2" "C" "024.2" "E2023.1").
  - apply elem_of_cons. by left.
  - apply elem_of_cons. right. apply elem_of_cons. by left.
  - reflexivity.
  - reflexivity.
Defined.

(** ** Entries are parsed one by one *)

(** X16. The parser treats the entries independently and in order: what it
    returns for two lists of entries put together is what it returns for the
    first followed by what it returns for the second.  An entry that occurs
    twice gives its projects twice. *)
Theorem parse_entries_concat (h : Host) (self : JetBrainsIde)
    (entries1 entries2 : list Element) (projects1 projects2 : list Project) :
  _parse_project_entries h self entries1 = Ok projects1 ->
  _parse_project_entries h self entries2 = Ok projects2 ->
  _parse_project_entries h self (entries1 ++ entries2)
  = Ok (projects1 ++ projects2).
Proof. intros H1 H2. by rewrite parse_app, H1, H2. Qed.

Lemma parse_entries_concat_witness :
  _parse_project_entries Sample.host_a Sample.pycharm
    ([Sample.stamped "/srv/old" "1500000000"]
     ++ [Sample.stamped "/srv/old" "1500000000"])
  = Ok ([Sample.project_at "/srv/old" 1500000000]
        ++ [Sample.project_at "/srv/old" 1500000000]).
Proof.
  apply (parse_entries_concat Sample.host_a Sample.pycharm); reflexivity.
Defined.

(** ** The file and the component of a variant *)

Lemma recent_projects_file_name (self : JetBrainsIde) (dir : string) :
  Path.name (recent_projects_file self dir) = recent_file (ide_class self).
Proof.
  unfold recent_projects_file.
  apply (name_last_segment (Path.join dir "options")); by destruct (ide_class self).
Qed.

(** X17. What [list_projects] returns depends on the files named
    [recentSolutions.xml] for a Rider, and [recentProjects.xml] for every
    other variant, and on no other file: two hosts with the same home,
    platform and directory listings that agree on the files of that name
    give the same result. *)
Theorem list_projects_reads_own_file (h h' : Host) (self : JetBrainsIde) :
  home h' = home h ->
  platform h' = platform h ->
  (forall dir pattern, glob h' dir pattern = glob h dir pattern) ->
  (forall file,
     Path.name file = match ide_class self with
                      | ClsRider => "recentSolutions.xml"
                      | ClsJetBrainsIde => "recentProjects.xml"
                      end ->
     parse h' file = parse h file) ->
  list_projects h' self = list_projects h self.
Proof.
  intros Hhome Hplatform Hglob Hfiles. unfold list_projects.
  apply (list_projects_in_same h h' Hhome Hplatform Hglob).
  intros p newest _ _. apply Hfiles.
  rewrite recent_projects_file_name. by destruct (ide_class self).
Qed.

Lemma list_projects_reads_own_file_witness :
  list_projects (Sample.host_rider "RiderRecentProjectsManager" (Raise ParseError))
    Sample.rider
  = list_projects
      (Sample.host_rider "RiderRecentProjectsManager"
         (Ok (Sample.recent_xml "RecentProjectsManager"
                [Sample.stamped "/srv/other" "43"])))
      Sample.rider.
Proof.
  apply (list_projects_reads_own_file
           (Sample.host_rider "RiderRecentProjectsManager"
              (Ok (Sample.recent_xml "RecentProjectsManager"
                     [Sample.stamped "/srv/other" "43"])))
           (Sample.host_rider "RiderRecentProjectsManager" (Raise ParseError))
           Sample.rider).
  - reflexivity.
  - reflexivity.
  - reflexivity.
  - intros file Hname. simpl.
    destruct (String.eqb_spec file
      "/home/u/.config/JetBrains/Rider2024.1/options/recentSolutions.xml");
      [done|].
    destruct (String.eqb_spec file
      "/home/u/.config/JetBrains/Rider2024.1/options/recentProjects.xml")
      as [->|]; [|done].
    discriminate Hname.
Defined.

Lemma filter_nil_none {A : Type} (P : A -> Prop) `{!forall x, Decision (P x)}
    (l : list A) :
  (forall x, x ∈ l -> ~ P x) -> filter P l = [].
Proof.
  intros Hnone. induction l as [|a l IH]; [done|].
  rewrite filter_cons_False; [|apply Hnone; by constructor].
  apply IH. intros x Hx. apply Hnone. by constructor.
Qed.

(** X18. Entries are taken from below a [component] element that carries
    the manager's name, itself below the root: when the file that was read
    has no such element below its root, [_get_recent_projects_entries]
    returns no entry, whatever entries the file holds elsewhere. *)
Theorem no_component_no_entries (h : Host) (self : JetBrainsIde)
    (config_dir : string) (root : Element) :
  parse h (recent_projects_file self config_dir) = Ok root ->
  (forall c, c ∈ concat (map ElementPath.iter (children root)) ->
     tag c = "component" ->
     attrib c !! "name" <> Some (recent_manager (ide_class self))) ->
  _get_recent_projects_entries h self config_dir = Ok [].
Proof.
  intros Hparse Hnone. unfold _get_recent_projects_entries. rewrite Hparse.
  simpl. f_equal. unfold ElementPath.findall_entries.
  assert (ElementPath.attr_is "name" (recent_manager (ide_class self))
            (ElementPath.descendant "component" [root]) = []) as ->; [|done].
  unfold ElementPath.attr_is, ElementPath.descendant. simpl.
  rewrite app_nil_r. apply filter_nil_none.
  intros c [Htag Hc]%list_elem_of_filter. by apply Hnone.
Qed.

Lemma no_component_no_entries_witness :
  _get_recent_projects_entries
    (Sample.host_rider "RecentProjectsManager" (Raise ParseError))
    Sample.rider "/home/u/.config/JetBrains/Rider2024.1"
  = Ok [].
Proof.
  apply (no_component_no_entries
           (Sample.host_rider "RecentProjectsManager" (Raise ParseError))
           Sample.rider "/home/u/.config/JetBrains/Rider2024.1"
           (Sample.recent_xml "RecentProjectsManager"
              [Sample.stamped "/srv/sln" "42"])).
  - reflexivity.
  - intros c Hc Htag. vm_compute in Hc.
    repeat (apply elem_of_cons in Hc as [->|Hc]; [try discriminate Htag|]).
    + vm_compute. discriminate.
    + by apply elem_of_nil in Hc.
Defined.

(** ** Entries that are skipped *)

Lemma forallb_elem {A : Type} (f : A -> bool) (l : list A) :
  (forall a, a ∈ l -> f a = true) -> forallb f l = true.
Proof.
  intros Hall. apply forallb_forall. intros a Ha. apply Hall.
  by apply list_elem_of_In.
Qed.

(** X19. An entry without timestamp is passed over when its project has no
    module file with a name of its own: the parser then returns, for a list
    of entries that holds it, what it returns for the list without it. *)
Theorem unstamped_entry_skipped (h : Host) (self : JetBrainsIde)
    (before after : list Element) (entry : Element) (key : string) :
  attrib entry !! "key" = Some key ->
  entry_last_opened entry = None ->
  (forall file,
     file ∈ glob h (Str.replace "$USER_HOME$" (home h) key +:+ "/.idea") "*.iml" ->
     module_name file = Path.name (Str.replace "$USER_HOME$" (home h) key)) ->
  _parse_project_entries h self (before ++ entry :: after)
  = _parse_project_entries h self (before ++ after).
Proof.
  intros Hkey Hnone Hfiles.
  rewrite !parse_app, parse_cons.
  rewrite (entry_step_none h self [] entry key Hkey Hnone).
  rewrite forallb_elem.
  - simpl. destruct (_parse_project_entries h self before) as [a|x]; simpl; [|done].
    by destruct (_parse_project_entries h self after).
  - intros file Hfile. apply String.eqb_eq. by apply Hfiles.
Qed.

Lemma unstamped_entry_skipped_witness :
  _parse_project_entries Sample.host_a Sample.pycharm
    ([Sample.stamped "/srv/old" "1500000000"]
     ++ Sample.entry_elem "/srv/gone" []
        :: [Sample.stamped "$USER_HOME$/work/app" "1700000000"])
  = _parse_project_entries Sample.host_a Sample.pycharm
      ([Sample.stamped "/srv/old" "1500000000"]
       ++ [Sample.stamped "$USER_HOME$/work/app" "1700000000"]).
Proof.
  apply (unstamped_entry_skipped Sample.host_a Sample.pycharm
           [Sample.stamped "/srv/old" "1500000000"]
           [Sample.stamped "$USER_HOME$/work/app" "1700000000"]
           (Sample.entry_elem "/srv/gone" []) "/srv/gone").
  - reflexivity.
  - reflexivity.
  - intros file Hfile. vm_compute in Hfile. by apply elem_of_nil in Hfile.
Defined.
